(** * ChartMuseum: the repository index coherence engine

    A shallow embedding of [pkg/chartmuseum/handlers.go] and
    [pkg/chartmuseum/server.go]: the request handlers, the reconciler
    ([syncRepositoryIndex], [regenerateRepositoryIndex]), the incremental
    mutation paths ([addChartPackage], [removeChartPackage]) and the
    parallel loader ([addIndexObjectsAsync]).

    The packages [pkg/repo] and [pkg/storage] are consumed through their
    interfaces: the storage backend and the artifact decoder are type
    classes, the index operations and the object diff are modelled from the
    specification and marked as such. *)

From stdpp Require Import base option list strings pretty gmap.
From Stdlib.Strings Require Import Byte.

Open Scope string_scope.
Open Scope Z_scope.

(** ** Errors and results *)

(** Go's [error] values.  [ErrorInvalidChartPackage] is the sentinel of
    [pkg/repo] that [checkInvalidChartPackageError] compares against;
    [NotFound] and [TransientIO] are the two kinds a backend reports;
    [Errorf] stands for [fmt.Errorf]. *)
Inductive error : Type :=
  | ErrorInvalidChartPackage
  | NotFound
  | TransientIO (msg : string)
  | Errorf (msg : string).

(** A Go pair [(value, error)] whose value is only read when the error is
    [nil]. *)
Inductive result (A : Type) : Type :=
  | Ok (a : A)
  | Err (e : error).
Arguments Ok {A} a.
Arguments Err {A} e.

Definition is_Ok {A} (r : result A) : bool :=
  match r with Ok _ => true | Err _ => false end.

(** ** Storage objects *)

Abbreviation bytes := (list byte).

Record ObjectMeta : Type := {
  lastModified : Z;
  contentHash : option string
}.

Global Instance ObjectMeta_eq_dec : EqDecision ObjectMeta.
Proof. solve_decision. Defined.

(** [storage.Object], declared in [pkg/storage].  The handlers read [Path]
    and [Content]; the meta that the diff compares is the one of the
    specification (a modification time, and a content hash when the backend
    has one). *)
Record Object : Type := {
  Path : string;
  Content : bytes;
  Meta : ObjectMeta
}.

(** [helm_repo.ChartVersion], a type of the chart library.  The handlers
    read [Name] and [Version]; the other fields are the ones the
    specification lists. *)
Record ChartVersion : Type := {
  Name : string;
  Version : string;
  URLs : list string;
  Digest : string;
  Created : Z
}.

(** ** Consumed interfaces *)

(** [storage.Backend].  The state of the blob store is explicit: reads are
    functions of it, writes return the next state. *)
Class Backend (B : Type) : Type := {
  ListObjects : B → result (list Object);
  GetObject : B → string → result Object;
  PutObject : B → string → bytes → option error * B;
  DeleteObject : B → string → option error * B
}.

(** The artifact decoder of [pkg/repo], consumed through the three
    functions the server calls.  Each returns a Go [error], any error. *)
Class Decoder : Type := {
  ChartVersionFromStorageObject : Object → result ChartVersion;
  ChartPackageFilenameFromContent : bytes → result string;
  ProvenanceFilenameFromContent : bytes → result string
}.

(** The index serializer behind [Index.Regenerate] and the semver order
    behind the sorted entries, both outside these sources. *)
Class IndexAdapters : Type := {
  serialize : gmap string (list ChartVersion) → result bytes;
  semverCompare : string → string → comparison
}.

(** The Go scheduler: the order in which the [n] goroutines of one batch
    run, each index once. *)
Class Scheduler : Type := {
  goSchedule : nat → list nat;
  goSchedule_perm : ∀ n, goSchedule n ≡ₚ seq 0 n
}.

(** ** Filenames *)

(** [strings.HasSuffix] *)
Definition HasSuffix (s suffix : string) : bool :=
  String.prefix (String.rev suffix) (String.rev s).

(** Modelled from the spec: the constants [repo.ChartPackageFileExtension]
    and [repo.ProvenanceFileExtension] are declared in [pkg/repo]; the
    specification fixes the suffixes as [.pkg] and [.prov]. *)
Definition ChartPackageFileExtension : string := ".pkg".
Definition ProvenanceFileExtension : string := ".prov".

(** Modelled from the spec: [storage.Object.HasExtension] is declared in
    [pkg/storage]; the reconciler keeps the objects whose path ends in the
    package extension. *)
Definition HasExtension (o : Object) (ext : string) : bool :=
  HasSuffix (Path o) ext.

(** Modelled from the spec: [repo.ChartPackageFilenameFromNameVersion] and
    [repo.ProvenanceFilenameFromNameVersion] are declared in [pkg/repo]; the
    filenames are [<name>-<version>.pkg] and [<name>-<version>.pkg.prov]. *)
Definition ChartPackageFilenameFromNameVersion (name version : string) : string :=
  name +:+ "-" +:+ version +:+ ".pkg".
Definition ProvenanceFilenameFromNameVersion (name version : string) : string :=
  name +:+ "-" +:+ version +:+ ".pkg.prov".

(** ** Object diff *)

(** [storage.ObjectSliceDiff] *)
Record ObjectSliceDiff : Type := {
  Change : bool;
  Removed : list Object;
  Added : list Object;
  Updated : list Object
}.

Definition pathTable (l : list Object) : gmap string Object :=
  list_to_map ((λ o, (Path o, o)) <$> l).

Definition metaDiffers (table : gmap string Object) (n : Object) : bool :=
  match table !! Path n with
  | Some o => bool_decide (Meta o ≠ Meta n)
  | None => false
  end.

(** Modelled from the spec: [storage.GetObjectSliceDiff] is declared in
    [pkg/storage].  Two tables keyed by path; [added] are the new objects
    whose path is absent from the old listing, [removed] the old objects
    whose path is absent from the new one, [updated] the new objects whose
    path is in both and whose meta differs; [changed] says that one of the
    three is not empty. *)
Definition GetObjectSliceDiff (old new : list Object) : ObjectSliceDiff :=
  let oldT := pathTable old in
  let newT := pathTable new in
  let added := filter (λ o, oldT !! Path o = None) new in
  let removed := filter (λ o, newT !! Path o = None) old in
  let updated := filter (λ n, metaDiffers oldT n) new in
  {| Change := bool_decide (0 < length added + length removed + length updated)%nat;
     Removed := removed;
     Added := added;
     Updated := updated |}.

(** ** The index, the server and the world it runs in *)

(** [repo.Index], declared in [pkg/repo], has the three fields that the
    composite literal of [regenerateRepositoryIndex] names: [IndexFile],
    [Raw] and [ChartURL].  The handlers reach the entries through the first
    one ([server.RepositoryIndex.Entries[name]]), and [Entries] is a Go map.
    The literal copies the field [IndexFile] of the live index into the
    working one, a shallow copy: the map behind it is one object, reached
    from both (the specification says so too: "same entries map reference").
    The embedding therefore keeps the entries in a store ([indexFiles]
    below) and gives each [Index] the address of its [IndexFile]; [Raw] and
    [ChartURL] are fields of the [Index] value itself.

    [server.RepositoryIndex] is a pointer to an [Index].  Nothing else in
    these sources holds that pointer, so the server field is modelled as
    the [Index] value, written back after each method call on it. *)
Record Index : Type := {
  IndexFile : nat;
  Raw : bytes;
  ChartURL : string
}.

(** [Server], without the logger, the router, the mutex and the TLS
    settings.  [CacheRefreshPeriod] is a [time.Duration], an integer. *)
Record Server : Type := {
  RepositoryIndex : Index;
  StorageCache : list Object;
  AllowOverwrite : bool;
  ChartPostFormFieldName : string;
  ProvPostFormFieldName : string;
  CacheRefreshPeriod : Z
}.

Inductive LogLevel : Type := DebugLevel | WarnLevel.

(** One call of [server.Logger]: the level, the message and the key/value
    pairs. *)
Record LogEntry : Type := {
  level : LogLevel;
  message : string;
  fields : list (string * string)
}.

(** Everything a handler can read or change: the blob store, the store of
    [IndexFile] objects, the server fields and the log written so far. *)
Record World (B : Type) : Type := {
  backend : B;
  indexFiles : gmap nat (gmap string (list ChartVersion));
  server : Server;
  logged : list LogEntry
}.
Arguments backend {B} w.
Arguments indexFiles {B} w.
Arguments server {B} w.
Arguments logged {B} w.

Definition setBackend {B} (b : B) (w : World B) : World B :=
  {| backend := b; indexFiles := indexFiles w; server := server w; logged := logged w |}.
Definition setIndexFiles {B} (h : gmap nat (gmap string (list ChartVersion)))
    (w : World B) : World B :=
  {| backend := backend w; indexFiles := h; server := server w; logged := logged w |}.
Definition setServer {B} (s : Server) (w : World B) : World B :=
  {| backend := backend w; indexFiles := indexFiles w; server := s; logged := logged w |}.
Definition setLogged {B} (l : list LogEntry) (w : World B) : World B :=
  {| backend := backend w; indexFiles := indexFiles w; server := server w; logged := l |}.

Definition setRepositoryIndex (index : Index) (s : Server) : Server :=
  {| RepositoryIndex := index; StorageCache := StorageCache s;
     AllowOverwrite := AllowOverwrite s;
     ChartPostFormFieldName := ChartPostFormFieldName s;
     ProvPostFormFieldName := ProvPostFormFieldName s;
     CacheRefreshPeriod := CacheRefreshPeriod s |}.
Definition setStorageCache (cache : list Object) (s : Server) : Server :=
  {| RepositoryIndex := RepositoryIndex s; StorageCache := cache;
     AllowOverwrite := AllowOverwrite s;
     ChartPostFormFieldName := ChartPostFormFieldName s;
     ProvPostFormFieldName := ProvPostFormFieldName s;
     CacheRefreshPeriod := CacheRefreshPeriod s |}.
Definition setRaw (raw : bytes) (index : Index) : Index :=
  {| IndexFile := IndexFile index; Raw := raw; ChartURL := ChartURL index |}.

(** The entries the index [index] reaches through its [IndexFile]. *)
Definition entriesOf {B} (w : World B) (index : Index)
    : gmap string (list ChartVersion) :=
  indexFiles w !!! IndexFile index.

(** ** A state monad over the world *)

Definition M (B A : Type) : Type := World B → A * World B.

Definition ret {B A} (a : A) : M B A := λ w, (a, w).
Definition bind {B A C} (m : M B A) (k : A → M B C) : M B C :=
  λ w, let '(a, w') := m w in k a w'.

Notation "'let!' x ':=' c 'in' k" := (bind c (λ x, k))
  (at level 10, x name, c at level 100, k at level 200).
Notation "c ';;' k" := (bind c (λ _, k))
  (at level 100, k at level 200, right associativity).

Definition getWorld {B} : M B (World B) := λ w, (w, w).
Definition getServer {B} : M B Server := λ w, (server w, w).
Definition putServer {B} (s : Server) : M B unit := λ w, (tt, setServer s w).

Definition Debugw {B} (msg : string) (kv : list (string * string)) : M B unit :=
  λ w, (tt, setLogged (logged w ++ [{| level := DebugLevel; message := msg; fields := kv |}]) w).
Definition Warnw {B} (msg : string) (kv : list (string * string)) : M B unit :=
  λ w, (tt, setLogged (logged w ++ [{| level := WarnLevel; message := msg; fields := kv |}]) w).

(** ** Index operations *)

Module IndexModel.
Section IndexModel.
Context `{IndexAdapters}.

(** Modelled from the spec: the order of the versions of a name, which
    [pkg/repo] keeps: newest first by (semver descending, created
    descending). *)
Definition before (a b : ChartVersion) : bool :=
  match semverCompare (Version a) (Version b) with
  | Gt => true
  | Lt => false
  | Eq => Created b <? Created a
  end.

(** Modelled from the spec: insertion that maintains the sort order. *)
Fixpoint insertSorted (cv : ChartVersion) (l : list ChartVersion)
    : list ChartVersion :=
  match l with
  | [] => [cv]
  | x :: l' => if before x cv then x :: insertSorted cv l' else cv :: l
  end.

(** Modelled from the spec: the entries of a name without the given
    version. *)
Definition dropVersion (version : string) (l : list ChartVersion)
    : list ChartVersion :=
  filter (λ x, Version x ≠ version) l.

(** Modelled from the spec: what [Index.AddEntry] does to the entries: it
    inserts or replaces the entry at [(name, version)]. *)
Definition addEntry (cv : ChartVersion) (e : gmap string (list ChartVersion))
    : gmap string (list ChartVersion) :=
  <[Name cv := insertSorted cv (dropVersion (Version cv) (default [] (e !! Name cv)))]> e.

(** Modelled from the spec: what [Index.RemoveEntry] does to the entries:
    it removes the entry at [(name, version)] if present; removing the last
    version of a name removes the name. *)
Definition removeEntry (cv : ChartVersion) (e : gmap string (list ChartVersion))
    : gmap string (list ChartVersion) :=
  match e !! Name cv with
  | None => e
  | Some l =>
      match dropVersion (Version cv) l with
      | [] => delete (Name cv) e
      | l' => <[Name cv := l']> e
      end
  end.

(** Modelled from the spec: the lookup of [Index.Get]; the empty version
    selects the first, newest, entry of the name. *)
Definition get (name version : string) (e : gmap string (list ChartVersion))
    : result ChartVersion :=
  match e !! name with
  | None => Err NotFound
  | Some l =>
      let found :=
        if decide (version = "") then head l
        else snd <$> list_find (λ x, Version x = version) l in
      match found with
      | Some cv => Ok cv
      | None => Err NotFound
      end
  end.
End IndexModel.
End IndexModel.

Section IndexOperations.
Context {B : Type} `{IndexAdapters}.

(** A write to the entries behind the [IndexFile] of [index]. *)
Definition updateEntries (index : Index)
    (f : gmap string (list ChartVersion) → gmap string (list ChartVersion))
    : M B unit :=
  λ w, (tt, setIndexFiles (<[IndexFile index := f (entriesOf w index)]> (indexFiles w)) w).

(** Modelled from the spec: [Index.AddEntry] is declared in [pkg/repo].
    It inserts or replaces the entry at [(name, version)], keeps the
    versions of a name sorted and clears [raw].  The entries are changed
    in place, behind the [IndexFile] of the receiver; the cleared [Raw]
    is a field of the receiver, returned here. *)
Definition AddEntry (index : Index) (cv : ChartVersion) : M B Index :=
  updateEntries index (IndexModel.addEntry cv) ;;
  ret (setRaw [] index).

(** Modelled from the spec: [Index.RemoveEntry] is declared in [pkg/repo].
    It removes the entry at [(name, version)] if present, removes the name
    with its last version, and clears [raw]. *)
Definition RemoveEntry (index : Index) (cv : ChartVersion) : M B Index :=
  updateEntries index (IndexModel.removeEntry cv) ;;
  ret (setRaw [] index).

(** Modelled from the spec: [Index.UpdateEntry] is declared in [pkg/repo];
    it is [AddEntry] under another name. *)
Definition UpdateEntry (index : Index) (cv : ChartVersion) : M B Index :=
  AddEntry index cv.

(** Modelled from the spec: [Index.Get] is declared in [pkg/repo].  The
    empty version selects the first entry of the name. *)
Definition Get (index : Index) (name version : string)
    : M B (result ChartVersion) :=
  λ w, (IndexModel.get name version (entriesOf w index), w).

(** Modelled from the spec: [Index.Regenerate] is declared in [pkg/repo].
    It rebuilds [raw] from the entries through the serializer and reports
    the serializer's error. *)
Definition Regenerate (index : Index) : M B (option error * Index) :=
  λ w, match serialize (entriesOf w index) with
       | Ok raw => ((None, setRaw raw index), w)
       | Err e => ((Some e, index), w)
       end.
End IndexOperations.

(** ** The server: [server.go] *)

Section Server.
Context {B : Type} `{!Backend B} `{!Decoder} `{!IndexAdapters} `{!Scheduler}.

Definition backendListObjects : M B (result (list Object)) :=
  λ w, (ListObjects (backend w), w).
Definition backendGetObject (path : string) : M B (result Object) :=
  λ w, (GetObject (backend w) path, w).
Definition backendPutObject (path : string) (content : bytes) : M B (option error) :=
  λ w, let r := PutObject (backend w) path content in (r.1, setBackend r.2 w).
Definition backendDeleteObject (path : string) : M B (option error) :=
  λ w, let r := DeleteObject (backend w) path in (r.1, setBackend r.2 w).

(** The mutex itself is not modelled (one handler runs at a time); the
    two log lines before the body and the deferred one after it are. *)
Definition withStorageCacheLock {A} (body : M B A) : M B A :=
  Debugw "Acquiring storage cache lock" [] ;;
  Debugw "Storage cache lock acquired" [] ;;
  let! r := body in
  Debugw "Releasing storage cache lock" [] ;;
  ret r.

Definition checkInvalidChartPackageError (object : Object) (err : error)
    (action : string) : M B (option error) :=
  match err with
  | ErrorInvalidChartPackage =>
      Warnw "Invalid package in storage"
            [("action", action); ("package", Path object)] ;;
      ret None
  | _ => ret (Some err)
  end.

Definition getObjectChartVersion (object : Object) (load : bool)
    : M B (result ChartVersion) :=
  if load then
    let! r := backendGetObject (Path object) in
    match r with
    | Err err => ret (Err err)
    | Ok object =>
        if (length (Content object) =? 0)%nat
        then ret (Err ErrorInvalidChartPackage)
        else ret (ChartVersionFromStorageObject object)
    end
  else ret (ChartVersionFromStorageObject object).

Definition listObjectsGetDiff : M B (result (list Object * ObjectSliceDiff)) :=
  let! r := backendListObjects in
  match r with
  | Err err => ret (Err err)
  | Ok allObjects =>
      let filteredObjects :=
        filter (λ object, HasExtension object ChartPackageFileExtension) allObjects in
      let! s := getServer in
      ret (Ok (filteredObjects, GetObjectSliceDiff (StorageCache s) filteredObjects))
  end.

Definition removeIndexObject (index : Index) (object : Object)
    : M B (option error * Index) :=
  let! r := getObjectChartVersion object false in
  match r with
  | Err err =>
      let! err := checkInvalidChartPackageError object err "removed" in
      ret (err, index)
  | Ok chartVersion =>
      Debugw "Removing chart from index"
             [("name", Name chartVersion); ("version", Version chartVersion)] ;;
      let! index := RemoveEntry index chartVersion in
      ret (None, index)
  end.

Definition updateIndexObject (index : Index) (object : Object)
    : M B (option error * Index) :=
  let! r := getObjectChartVersion object true in
  match r with
  | Err err =>
      let! err := checkInvalidChartPackageError object err "updated" in
      ret (err, index)
  | Ok chartVersion =>
      Debugw "Updating chart in index"
             [("name", Name chartVersion); ("version", Version chartVersion)] ;;
      let! index := UpdateEntry index chartVersion in
      ret (None, index)
  end.

(** [for _, object := range objects { err := f(index, object); if err != nil
    { return err } }] *)
Fixpoint forEachObject (f : Index → Object → M B (option error * Index))
    (index : Index) (objects : list Object) : M B (option error * Index) :=
  match objects with
  | [] => ret (None, index)
  | object :: rest =>
      let! r := f index object in
      match r.1 with
      | Some err => ret (Some err, r.2)
      | None => forEachObject f r.2 rest
      end
  end.

(** The body of one goroutine of [addIndexObjectsAsync], for the object
    [o] at position [i].  [err] is the variable declared before the
    loop.  Inside [if err == nil], the statement
    [chartVersion, err := server.getObjectChartVersion(o, true)] declares
    a second [err], local to that block, and the assignment
    [err = server.checkInvalidChartPackageError(...)] writes that one: the
    outer [err] leaves the goroutine as it entered. *)
Definition loadGoroutine (i : nat) (o : Object) (err : option error)
    (loaded : list (option ChartVersion))
    : M B (option error * list (option ChartVersion)) :=
  match err with
  | None =>
      let! r := getObjectChartVersion o true in
      match r with
      | Err err' =>
          let! _ := checkInvalidChartPackageError o err' "added" in
          ret (err, loaded)
      | Ok chartVersion => ret (err, <[i := Some chartVersion]> loaded)
      end
  | Some _ => ret (err, loaded)
  end.

(** The goroutines run to completion in the order the scheduler picks.
    They share [err], which none of them writes, the slots of [loaded],
    where goroutine [i] writes slot [i] only, the logger and the backend,
    which they only read. *)
Fixpoint runGoroutines (schedule : list nat) (objects : list Object)
    (err : option error) (loaded : list (option ChartVersion))
    : M B (option error * list (option ChartVersion)) :=
  match schedule with
  | [] => ret (err, loaded)
  | i :: rest =>
      match objects !! i with
      | Some o =>
          let! r := loadGoroutine i o err loaded in
          runGoroutines rest objects r.1 r.2
      | None => runGoroutines rest objects err loaded
      end
  end.

Fixpoint addLoaded (index : Index) (loaded : list (option ChartVersion))
    : M B Index :=
  match loaded with
  | [] => ret index
  | None :: rest => addLoaded index rest
  | Some chartVersion :: rest =>
      Debugw "Adding chart to index"
             [("name", Name chartVersion); ("version", Version chartVersion)] ;;
      let! index := AddEntry index chartVersion in
      addLoaded index rest
  end.

Definition addIndexObjectsAsync (index : Index) (objects : list Object)
    : M B (option error * Index) :=
  let numObjects := length objects in
  if (numObjects =? 0)%nat then ret (None, index)
  else
    Debugw "Loading charts packages from storage (this could take awhile)"
           [("total", pretty numObjects)] ;;
    let! r := runGoroutines (goSchedule numObjects) objects None
                            (replicate numObjects None) in
    match r.1 with
    | Some err => ret (Some err, index)
    | None =>
        let! index := addLoaded index r.2 in
        ret (None, index)
    end.

Definition regenerateRepositoryIndex : M B (option error) :=
  withStorageCacheLock (
    let! r := listObjectsGetDiff in
    match r with
    | Err err => ret (Some err)
    | Ok (objects, diff) =>
        let! s := getServer in
        let index := {| IndexFile := IndexFile (RepositoryIndex s);
                        Raw := Raw (RepositoryIndex s);
                        ChartURL := ChartURL (RepositoryIndex s) |} in
        let! r := forEachObject removeIndexObject index (Removed diff) in
        match r.1 with
        | Some err => ret (Some err)
        | None =>
        let! r := forEachObject updateIndexObject r.2 (Updated diff) in
        match r.1 with
        | Some err => ret (Some err)
        | None =>
        let! r := addIndexObjectsAsync r.2 (Added diff) in
        match r.1 with
        | Some err => ret (Some err)
        | None =>
        Debugw "Regenerating index.yaml" [] ;;
        let! r := Regenerate r.2 in
        match r.1 with
        | Some err => ret (Some err)
        | None =>
            let! s := getServer in
            putServer (setStorageCache objects (setRepositoryIndex r.2 s)) ;;
            ret None
        end end end end
    end).

Definition syncRepositoryIndex : M B (option error) :=
  let! r := listObjectsGetDiff in
  match r with
  | Err err => ret (Some err)
  | Ok (_, diff) =>
      if negb (Change diff) then ret None
      else regenerateRepositoryIndex
  end.

(** Remove chart from both cache and index.  [removeIndexObject] receives
    the live index: what it does to [Raw] is stored back. *)
Definition removeChartPackage (filename : string) : M B (option error) :=
  let! s := getServer in
  match list_find (λ o, Path o = filename) (StorageCache s) with
  | Some (idx, obj) =>
      let! r := removeIndexObject (RepositoryIndex s) obj in
      let! s := getServer in
      putServer (setRepositoryIndex r.2 s) ;;
      match r.1 with
      | Some err => ret (Some err)
      | None =>
          let! s := getServer in
          putServer (setStorageCache
                       (take idx (StorageCache s) ++ drop (S idx) (StorageCache s)) s) ;;
          ret None
      end
  | None =>
      ret (Some (Errorf ("chart with filename '" +:+ filename +:+ "' not found")))
  end.

Definition addChartPackage (object : Object) : M B (option error) :=
  let! s := getServer in
  putServer (setStorageCache (StorageCache s ++ [object]) s) ;;
  let! r := getObjectChartVersion object false in
  match r with
  | Err err => checkInvalidChartPackageError object err "added"
  | Ok chartVersion =>
      let! s := getServer in
      let! index := AddEntry (RepositoryIndex s) chartVersion in
      let! s := getServer in
      putServer (setRepositoryIndex index s) ;;
      ret None
  end.

(** [Update], the entry point of the ticker: a reconcile whose error is
    dropped. *)
Definition Update : M B unit :=
  let! _ := regenerateRepositoryIndex in
  ret tt.

Definition findObject (filename : string) : M B (result Object) :=
  let! s := getServer in
  match list_find (λ o, Path o = filename) (StorageCache s) with
  | Some (_, o) => ret (Ok o)
  | None =>
      ret (Err (Errorf ("object with filename '" +:+ filename +:+ "' not found")))
  end.
End Server.

(** ** The request handlers: [handlers.go] *)

(** A [gin.H] with one key, and the other bodies a handler writes.
    [VError err] is the text [fmt.Sprintf("%s", err)]. *)
Inductive HValue : Type := VTrue | VString (s : string) | VError (err : error).

(** The content types, constants of [pkg/repo]. *)
Inductive ContentType : Type :=
  | IndexFileContentType
  | ChartPackageContentType
  | ProvenanceFileContentType.

Inductive Body : Type :=
  | H (key : string) (value : HValue)
  | Data (contentType : ContentType) (content : bytes)
  | EntriesJSON (entries : gmap string (list ChartVersion))
  | ChartJSON (versions : list ChartVersion)
  | ChartVersionJSON (chartVersion : ChartVersion).

Record Response : Type := {
  status : Z;
  body : Body
}.

Definition JSON (code : Z) (b : Body) : Response := {| status := code; body := b |}.

Definition objectSavedResponse : Body := H "saved" VTrue.
Definition objectDeletedResponse : Body := H "deleted" VTrue.
Definition notFoundErrorResponse : Body := H "error" (VString "not found").
Definition badExtensionErrorResponse : Body :=
  H "error" (VString "unsupported file extension").
Definition alreadyExistsErrorResponse : Body :=
  H "error" (VString "file already exists").

Definition errorResponse (err : error) : Body :=
  H "error" (VError err).

(** What a handler reads of [gin.Context]: the route parameters, the
    content type, the raw body ([c.GetRawData]) and the form files
    ([req.FormFile] followed by [io.Copy]; [None] when the field is
    absent). *)
Record Request : Type := {
  Param : string → string;
  RequestContentType : string;
  RawData : result bytes;
  FormFile : string → option (result bytes)
}.

Record packageOrProvenanceFile : Type := {
  filename : string;
  content : bytes;
  field : string
}.

Section Handlers.
Context {B : Type} `{!Backend B} `{!Decoder} `{!IndexAdapters} `{!Scheduler}.

(** [if server.CacheRefreshPeriod > 0 { lock; defer unlock }] *)
Definition lockIfPeriodic {A} (body : M B A) : M B A :=
  let! s := getServer in
  if 0 <? CacheRefreshPeriod s then withStorageCacheLock body else body.

(** [if server.CacheRefreshPeriod == 0 { err := server.syncRepositoryIndex() ... }] *)
Definition syncOnRead (serve : M B Response) : M B Response :=
  let! s := getServer in
  if CacheRefreshPeriod s =? 0 then
    let! err := syncRepositoryIndex in
    match err with
    | Some err => ret (JSON 500 (errorResponse err))
    | None => serve
    end
  else serve.

Definition getIndexFileRequestHandler (c : Request) : M B Response :=
  syncOnRead (
    let! s := getServer in
    ret {| status := 200; body := Data IndexFileContentType (Raw (RepositoryIndex s)) |}).

Definition getAllChartsRequestHandler (c : Request) : M B Response :=
  syncOnRead (
    let! w := getWorld in
    ret (JSON 200 (EntriesJSON (entriesOf w (RepositoryIndex (server w)))))).

Definition getChartRequestHandler (c : Request) : M B Response :=
  let name := Param c "name" in
  syncOnRead (
    let! w := getWorld in
    match entriesOf w (RepositoryIndex (server w)) !! name with
    | None => ret (JSON 404 notFoundErrorResponse)
    | Some chart => ret (JSON 200 (ChartJSON chart))
    end).

Definition getChartVersionRequestHandler (c : Request) : M B Response :=
  let name := Param c "name" in
  let version := Param c "version" in
  let version := if decide (version = "latest") then "" else version in
  syncOnRead (
    let! s := getServer in
    let! r := Get (RepositoryIndex s) name version in
    match r with
    | Err _ => ret (JSON 404 notFoundErrorResponse)
    | Ok chartVersion => ret (JSON 200 (ChartVersionJSON chartVersion))
    end).

Definition deleteChartVersionRequestHandler (c : Request) : M B Response :=
  lockIfPeriodic (
    let name := Param c "name" in
    let version := Param c "version" in
    let filename := ChartPackageFilenameFromNameVersion name version in
    Debugw "Deleting package from storage" [("package", filename)] ;;
    let! err := backendDeleteObject filename in
    match err with
    | Some _ => ret (JSON 404 notFoundErrorResponse)
    | None =>
        let provFilename := ProvenanceFilenameFromNameVersion name version in
        let! _ := backendDeleteObject provFilename in
        let! s := getServer in
        if 0 <? CacheRefreshPeriod s then
          let! err := removeChartPackage filename in
          match err with
          | Some err => ret (JSON 500 (errorResponse err))
          | None => ret (JSON 200 objectDeletedResponse)
          end
        else ret (JSON 200 objectDeletedResponse)
    end).

Definition getStorageObjectRequestHandler (c : Request) : M B Response :=
  let filename := Param c "filename" in
  let isChartPackage := HasSuffix filename ChartPackageFileExtension in
  let isProvenanceFile := HasSuffix filename ProvenanceFileExtension in
  if negb isChartPackage && negb isProvenanceFile then
    ret (JSON 500 badExtensionErrorResponse)
  else
    let! r := backendGetObject filename in
    match r with
    | Err _ => ret (JSON 404 notFoundErrorResponse)
    | Ok object =>
        if isProvenanceFile then
          ret {| status := 200; body := Data ProvenanceFileContentType (Content object) |}
        else
          ret {| status := 200; body := Data ChartPackageContentType (Content object) |}
    end.

Definition extractAndValidateFormFile (req : Request) (field : string)
    (fnFromContent : bytes → result string)
    : M B (option packageOrProvenanceFile * Z * option error) :=
  match FormFile req field with
  | None => ret (None, 200, None)
  | Some (Err err) => ret (None, 500, Some err)
  | Some (Ok content) =>
      match fnFromContent content with
      | Err err => ret (None, 400, Some err)
      | Ok filename =>
          let ppf := {| filename := filename; content := content; field := field |} in
          let! s := getServer in
          if negb (AllowOverwrite s) then
            let! r := backendGetObject filename in
            match r with
            | Ok _ => ret (None, 409, Some (Errorf (filename +:+ " already exists")))
            | Err _ => ret (Some ppf, 200, None)
            end
          else ret (Some ppf, 200, None)
      end
  end.

(** The first loop of [postPackageAndProvenanceRequestHandler]: the form
    fields in order; the first error ends the request. *)
Fixpoint extractFormFiles (req : Request)
    (ffp : list (string * (bytes → result string)))
    (ppFiles : list packageOrProvenanceFile)
    : M B (Response + list packageOrProvenanceFile) :=
  match ffp with
  | [] => ret (inr ppFiles)
  | ff :: rest =>
      let! r := extractAndValidateFormFile req ff.1 ff.2 in
      match r with
      | (_, status, Some err) => ret (inl (JSON status (errorResponse err)))
      | (Some ppf, _, None) => extractFormFiles req rest (ppFiles ++ [ppf])
      | (None, _, None) => extractFormFiles req rest ppFiles
      end
  end.

Fixpoint deleteStoredFiles (storedFiles : list packageOrProvenanceFile) : M B unit :=
  match storedFiles with
  | [] => ret tt
  | ppf :: rest =>
      let! _ := backendDeleteObject (filename ppf) in
      deleteStoredFiles rest
  end.

(** The second loop.  [err] is the result of [PutObject].  In the block
    that refreshes the cache, [obj, err := server.StorageBackend.GetObject(...)]
    declares a second [err], local to that block, and
    [err = server.addChartPackage(obj)] writes that one: the test
    [if err != nil] after the block reads the result of [PutObject]. *)
Fixpoint storeFiles (ppFiles storedFiles : list packageOrProvenanceFile)
    : M B Response :=
  match ppFiles with
  | [] => ret (JSON 201 objectSavedResponse)
  | ppf :: rest =>
      Debugw "Adding file to storage (form field)"
             [("filename", filename ppf); ("field", field ppf)] ;;
      let! err := backendPutObject (filename ppf) (content ppf) in
      match err with
      | None =>
          let storedFiles := (storedFiles ++ [ppf])%list in
          let! s := getServer in
          (if (0 <? CacheRefreshPeriod s)
              && HasSuffix (filename ppf) ChartPackageFileExtension
           then
             let! r := backendGetObject (filename ppf) in
             match r with
             | Ok obj => let! _ := addChartPackage obj in ret tt
             | Err _ => ret tt
             end
           else ret tt) ;;
          storeFiles rest storedFiles
      | Some err =>
          deleteStoredFiles storedFiles ;;
          ret (JSON 500 (errorResponse err))
      end
  end.

Definition postPackageAndProvenanceRequestHandler (c : Request) : M B Response :=
  lockIfPeriodic (
    let! s := getServer in
    let ffp := [(ChartPostFormFieldName s, ChartPackageFilenameFromContent);
                (ProvPostFormFieldName s, ProvenanceFilenameFromContent)] in
    let! r := extractFormFiles c ffp [] in
    match r with
    | inl response => ret response
    | inr ppFiles =>
        if (length ppFiles =? 0)%nat then
          ret (JSON 400 (errorResponse (Errorf (
            "no package or provenance file found in form fields "
            +:+ ChartPostFormFieldName s +:+ " and " +:+ ProvPostFormFieldName s))))
        else storeFiles ppFiles []
    end).

Definition postPackageRequestHandler (c : Request) : M B Response :=
  lockIfPeriodic (
    match RawData c with
    | Err err => ret (JSON 500 (errorResponse err))
    | Ok content =>
    match ChartPackageFilenameFromContent content with
    | Err err => ret (JSON 500 (errorResponse err))
    | Ok filename =>
        let! s := getServer in
        let! exists_ :=
          (if negb (AllowOverwrite s) then
             let! r := backendGetObject filename in ret (is_Ok r)
           else ret false) in
        if exists_ then ret (JSON 500 alreadyExistsErrorResponse)
        else
          Debugw "Adding package to storage" [("package", filename)] ;;
          let! err := backendPutObject filename content in
          match err with
          | Some err => ret (JSON 500 (errorResponse err))
          | None =>
              let! s := getServer in
              if 0 <? CacheRefreshPeriod s then
                let! r := backendGetObject filename in
                let! err :=
                  match r with
                  | Ok obj => addChartPackage obj
                  | Err err => ret (Some err)
                  end in
                match err with
                | Some err => ret (JSON 500 (errorResponse err))
                | None => ret (JSON 201 objectSavedResponse)
                end
              else ret (JSON 201 objectSavedResponse)
          end
    end end).

Definition postRequestHandler (c : Request) : M B Response :=
  if decide (RequestContentType c = "multipart/form-data")
  then postPackageAndProvenanceRequestHandler c
  else postPackageRequestHandler c.

Definition postProvenanceFileRequestHandler (c : Request) : M B Response :=
  match RawData c with
  | Err err => ret (JSON 500 (errorResponse err))
  | Ok content =>
  match ProvenanceFilenameFromContent content with
  | Err err => ret (JSON 500 (errorResponse err))
  | Ok filename =>
      let! s := getServer in
      let! exists_ :=
        (if negb (AllowOverwrite s) then
           let! r := backendGetObject filename in ret (is_Ok r)
         else ret false) in
      if exists_ then ret (JSON 500 alreadyExistsErrorResponse)
      else
        Debugw "Adding provenance file to storage" [("provenance_file", filename)] ;;
        let! err := backendPutObject filename content in
        match err with
        | Some err => ret (JSON 500 (errorResponse err))
        | None => ret (JSON 201 objectSavedResponse)
        end
  end end.
End Handlers.

(** ** Test doubles: an in-memory backend, a small decoder, a serializer *)

Module Doubles.

(** An in-memory blob store with fault injection: the paths listed in
    [failGet], [failPut] and [failDelete] fail with [TransientIO]; a path
    that is not stored is reported as [NotFound] first. *)
Record MemBackend : Type := {
  objs : list Object;
  clock : Z;
  failList : bool;
  failGet : list string;
  failPut : list string;
  failDelete : list string
}.

Definition memFind (b : MemBackend) (path : string) : option Object :=
  snd <$> list_find (λ o, Path o = path) (objs b).

Definition memList (b : MemBackend) : result (list Object) :=
  if failList b then Err (TransientIO "list: connection reset") else Ok (objs b).

Definition memGet (b : MemBackend) (path : string) : result Object :=
  match memFind b path with
  | None => Err NotFound
  | Some o =>
      if bool_decide (path ∈ failGet b) then Err (TransientIO "get: connection reset")
      else Ok o
  end.

Definition memPut (b : MemBackend) (path : string) (c : bytes)
    : option error * MemBackend :=
  if bool_decide (path ∈ failPut b) then (Some (TransientIO "put: connection reset"), b)
  else
    let o := {| Path := path; Content := c;
                Meta := {| lastModified := clock b; contentHash := None |} |} in
    (None, {| objs := filter (λ x, Path x ≠ path) (objs b) ++ [o];
              clock := clock b + 1; failList := failList b;
              failGet := failGet b; failPut := failPut b;
              failDelete := failDelete b |}).

Definition memDelete (b : MemBackend) (path : string) : option error * MemBackend :=
  match memFind b path with
  | None => (Some NotFound, b)
  | Some _ =>
      if bool_decide (path ∈ failDelete b) then
        (Some (TransientIO "delete: connection reset"), b)
      else
        (None, {| objs := filter (λ x, Path x ≠ path) (objs b);
                  clock := clock b; failList := failList b;
                  failGet := failGet b; failPut := failPut b;
                  failDelete := failDelete b |})
  end.

#[export] Instance memBackend : Backend MemBackend := {|
  ListObjects := memList;
  GetObject := memGet;
  PutObject := memPut;
  DeleteObject := memDelete
|}.

(** A two-byte package format: a letter for the name, a digit for the
    version.  The single byte [!] is a truncated stream, reported with an
    error of its own; everything else is an invalid package. *)
Definition toyDecode (c : bytes) : result (string * string) :=
  match c with
  | ["a"; "1"]%byte => Ok ("alpha", "1.0")
  | ["a"; "2"]%byte => Ok ("alpha", "2.0")
  | ["b"; "1"]%byte => Ok ("beta", "1.0")
  | ["!"]%byte => Err (Errorf "unexpected EOF")
  | _ => Err ErrorInvalidChartPackage
  end.

Definition toyChartVersion (o : Object) : result ChartVersion :=
  match toyDecode (Content o) with
  | Ok (n, v) => Ok {| Name := n; Version := v; URLs := ["charts/" +:+ Path o];
                       Digest := ""; Created := lastModified (Meta o) |}
  | Err e => Err e
  end.

Definition toyPackageFilename (c : bytes) : result string :=
  match toyDecode c with
  | Ok (n, v) => Ok (ChartPackageFilenameFromNameVersion n v)
  | Err e => Err e
  end.

Definition toyProvenanceFilename (c : bytes) : result string :=
  match c with
  | "p"%byte :: c' =>
      match toyDecode c' with
      | Ok (n, v) => Ok (ProvenanceFilenameFromNameVersion n v)
      | Err e => Err e
      end
  | _ => Err ErrorInvalidChartPackage
  end.

#[export] Instance toyDecoder : Decoder := {|
  ChartVersionFromStorageObject := toyChartVersion;
  ChartPackageFilenameFromContent := toyPackageFilename;
  ProvenanceFilenameFromContent := toyProvenanceFilename
|}.

(** The serialization is a header byte followed by one line per name and
    version; versions are ordered as strings. *)
Definition toyLine (cv : ChartVersion) : bytes :=
  String.list_byte_of_string (Name cv +:+ " " +:+ Version cv) ++ ["010"%byte].

Definition toySerialize (e : gmap string (list ChartVersion)) : result bytes :=
  Ok ("#"%byte :: concat ((λ kv, concat (toyLine <$> kv.2)) <$> map_to_list e)).

#[export] Instance toyAdapters : IndexAdapters := {|
  serialize := toySerialize;
  semverCompare := String.compare
|}.

(** Two schedulers: goroutines in the order of the loop, and in the
    opposite order. *)
#[export] Instance inOrder : Scheduler :=
  {| goSchedule n := seq 0 n;
     goSchedule_perm n := Permutation_refl (seq 0 n) |}.

Definition lastFirst : Scheduler :=
  {| goSchedule n := reverse (seq 0 n);
     goSchedule_perm n := reverse_Permutation (seq 0 n) |}.

Definition emptyBackend : MemBackend :=
  {| objs := []; clock := 100; failList := false;
     failGet := []; failPut := []; failDelete := [] |}.

Definition withObjects (l : list Object) (b : MemBackend) : MemBackend :=
  {| objs := l; clock := clock b; failList := failList b;
     failGet := failGet b; failPut := failPut b; failDelete := failDelete b |}.

Definition object (path : string) (c : bytes) (t : Z) : Object :=
  {| Path := path; Content := c; Meta := {| lastModified := t; contentHash := None |} |}.

(** [NewServer] before its first reconcile: an empty index whose
    [IndexFile] is at address 0, an empty cache. *)
Definition newServer (allowOverwrite : bool) (period : Z) : Server :=
  {| RepositoryIndex := {| IndexFile := 0%nat; Raw := []; ChartURL := "" |};
     StorageCache := [];
     AllowOverwrite := allowOverwrite;
     ChartPostFormFieldName := "chart";
     ProvPostFormFieldName := "prov";
     CacheRefreshPeriod := period |}.

Definition newWorld (b : MemBackend) (s : Server) : World MemBackend :=
  {| backend := b; indexFiles := {[ 0%nat := ∅ ]}; server := s; logged := [] |}.

Definition request (params : list (string * string)) : Request :=
  {| Param name := default "" ((λ r, r.2.2) <$> list_find (λ kv, kv.1 = name) params);
     RequestContentType := ""; RawData := Ok []; FormFile _ := None |}.

Definition rawUpload (c : bytes) : Request :=
  {| Param _ := ""; RequestContentType := "application/octet-stream";
     RawData := Ok c; FormFile _ := None |}.

Definition formUpload (files : list (string * bytes)) : Request :=
  {| Param _ := ""; RequestContentType := "multipart/form-data"; RawData := Ok [];
     FormFile name := (λ kv, Ok kv.2.2) <$> list_find (λ kv, kv.1 = name) files |}.

Definition alpha1 := object "alpha-1.0.pkg" ["a"; "1"]%byte 1.
Definition alpha2 := object "alpha-2.0.pkg" ["a"; "2"]%byte 2.
Definition beta1 := object "beta-1.0.pkg" ["b"; "1"]%byte 3.
Definition junk := object "junk.pkg" ["?"]%byte 4.
Definition readme := object "README.md" ["r"]%byte 5.

Definition versionsOf (w : World MemBackend) (name : string) : list string :=
  Version <$> default [] (entriesOf w (RepositoryIndex (server w)) !! name).
End Doubles.

(** ** Worlds and requests used in examples *)

Module Scenarios.
Import Doubles.

(** The store of the cold start: three packages, one invalid package and
    one file that is not a package. *)
Definition coldStore : MemBackend :=
  withObjects [alpha1; readme; alpha2; junk; beta1] emptyBackend.

(** A server in refresh-on-read mode after its first reconcile. *)
Definition started : World MemBackend :=
  (regenerateRepositoryIndex (newWorld coldStore (newServer false 0))).2.

(** A store that lists [alpha-1.0.pkg] and fails to return it. *)
Definition flakyStore : MemBackend :=
  {| objs := [alpha1; beta1]; clock := 100; failList := false;
     failGet := ["alpha-1.0.pkg"]; failPut := []; failDelete := [] |}.

Definition flakyWorld : World MemBackend :=
  newWorld flakyStore (newServer false 0).

(** The store of [started] after [alpha-1.0.pkg] was removed and
    [beta-1.0.pkg] rewritten out of band; fetching the latter fails. *)
Definition driftedStore : MemBackend :=
  {| objs := [alpha2; junk; object "beta-1.0.pkg" ["b"; "1"]%byte 9];
     clock := 100; failList := false;
     failGet := ["beta-1.0.pkg"]; failPut := []; failDelete := [] |}.

Definition driftedWorld : World MemBackend := setBackend driftedStore started.

(** A package whose stream is cut short. *)
Definition truncated : Object := object "alpha-1.0.pkg" ["!"]%byte 7.

(** A package stored with no content. *)
Definition hollow : Object := object "hollow-0.1.pkg" [] 6.

Definition hollowWorld : World MemBackend :=
  newWorld (withObjects [hollow] emptyBackend) (newServer false 0).

(** A server in periodic-refresh mode after its first reconcile. *)
Definition smallStore : MemBackend := withObjects [alpha1; alpha2] emptyBackend.

Definition ticking : World MemBackend :=
  (regenerateRepositoryIndex (newWorld smallStore (newServer false 60))).2.

(** An empty store that refuses the provenance file of [alpha 1.0], and
    the same store refusing to delete the package as well. *)
Definition provFailsStore : MemBackend :=
  {| objs := []; clock := 100; failList := false;
     failGet := []; failPut := ["alpha-1.0.pkg.prov"]; failDelete := [] |}.

Definition tickingEmpty : World MemBackend :=
  (regenerateRepositoryIndex (newWorld provFailsStore (newServer false 60))).2.

Definition packageAndProvenance : Request :=
  formUpload [("chart", ["a"; "1"]%byte); ("prov", ["p"; "a"; "1"]%byte)].

(** The same refusal with the server in refresh-on-read mode, and a store
    that refuses to delete the package as well. *)
Definition readingEmpty : World MemBackend :=
  (regenerateRepositoryIndex (newWorld provFailsStore (newServer false 0))).2.

Definition stickyStore : MemBackend :=
  {| objs := []; clock := 100; failList := false;
     failGet := []; failPut := ["alpha-1.0.pkg.prov"];
     failDelete := ["alpha-1.0.pkg"] |}.

Definition stickyWorld : World MemBackend :=
  (regenerateRepositoryIndex (newWorld stickyStore (newServer false 0))).2.

Definition packageOnly : Request := formUpload [("chart", ["a"; "1"]%byte)].

(** A periodic server that cached [alpha-2.0.pkg]; [alpha-1.0.pkg] reached
    the store afterwards, before the next tick. *)
Definition outOfBand : World MemBackend :=
  setBackend (withObjects [alpha2; alpha1] emptyBackend)
    (regenerateRepositoryIndex
       (newWorld (withObjects [alpha2] emptyBackend) (newServer false 60))).2.

Definition deleteAlpha1 : Request := request [("name", "alpha"); ("version", "1.0")].

(** A store that holds [alpha-1.0.pkg] and fails to return or delete it. *)
Definition brokenStore : MemBackend :=
  {| objs := [alpha1]; clock := 100; failList := false;
     failGet := ["alpha-1.0.pkg"]; failPut := []; failDelete := ["alpha-1.0.pkg"] |}.

Definition brokenWorld : World MemBackend := newWorld brokenStore (newServer false 0).

Definition getAlpha1 : Request := request [("filename", "alpha-1.0.pkg")].

(** A store whose listing fails, under a server in refresh-on-read mode. *)
Definition downStore : MemBackend :=
  {| objs := [alpha1]; clock := 100; failList := true;
     failGet := []; failPut := []; failDelete := [] |}.

Definition downWorld : World MemBackend := newWorld downStore (newServer false 0).

(** A multipart upload whose package does not decode. *)
Definition junkUpload : Request := formUpload [("chart", ["?"]%byte)].

(** The provenance file of [alpha 1.0]. *)
Definition alpha1Provenance : Request := rawUpload ["p"; "a"; "1"]%byte.
End Scenarios.

(** * Properties *)

(** ** Vocabulary *)

Section Vocabulary.
Context {B : Type}.

(** Every run of [m] relates the world before to the world after. *)
Definition respects (R : relation (World B)) {A} (m : M B A) : Prop :=
  ∀ w, R w (m w).2.

(** Every run of [m] returns a value in [Q]. *)
Definition returns {A} (Q : A → Prop) (m : M B A) : Prop := ∀ w, Q (m w).1.

(** The operation leaves the blob store and the server fields alone: it
    may write to the store of index files and to the log. *)
Definition sameStore (w w' : World B) : Prop :=
  backend w' = backend w ∧ server w' = server w.

(** The operation changes the log only. *)
Definition logsOnly (w w' : World B) : Prop :=
  backend w' = backend w ∧ server w' = server w ∧ indexFiles w' = indexFiles w.

(** The operation leaves the index and the cache alone. *)
Definition sameIndex (w w' : World B) : Prop :=
  server w' = server w ∧ indexFiles w' = indexFiles w.

(** The entries of the live index. *)
Definition liveEntries (w : World B) : gmap string (list ChartVersion) :=
  entriesOf w (RepositoryIndex (server w)).

(** What an incremental mutation may do to the live index: clear [Raw], or
    leave both [Raw] and the entries as they are. *)
Definition clearsRaw (w w' : World B) : Prop :=
  Raw (RepositoryIndex (server w')) = []
  ∨ (Raw (RepositoryIndex (server w')) = Raw (RepositoryIndex (server w))
     ∧ liveEntries w' = liveEntries w).

(** The world after the warning of [checkInvalidChartPackageError]. *)
Definition warnInvalid (action : string) (object : Object) (w : World B) : World B :=
  setLogged (logged w ++ [{| level := WarnLevel; message := "Invalid package in storage";
                             fields := [("action", action); ("package", Path object)] |}]) w.
End Vocabulary.

Section IndexVocabulary.
Context {B : Type} `{!IndexAdapters}.

(** Invariant I1 of the live index. *)
Definition I1 (w : World B) : Prop :=
  Raw (RepositoryIndex (server w)) = []
  ∨ serialize (liveEntries w) = Ok (Raw (RepositoryIndex (server w))).
End IndexVocabulary.

(** The versions the entries hold for a name. *)
Definition versionsAt (entries : gmap string (list ChartVersion)) (name : string)
    : list string :=
  Version <$> default [] (entries !! name).

(** The listing the reconciler keeps. *)
Definition filteredObjects (all : list Object) : list Object :=
  filter (λ object, HasExtension object ChartPackageFileExtension) all.

(** The files a delete request names. *)
Definition packageFile (c : Request) : string :=
  ChartPackageFilenameFromNameVersion (Param c "name") (Param c "version").
Definition provenanceFile (c : Request) : string :=
  ProvenanceFilenameFromNameVersion (Param c "name") (Param c "version").

Section BackendVocabulary.
Context {B : Type} `{!Backend B} `{!Decoder}.

(** The state a successful reconcile leaves: the cache is the filtered
    listing of the blob store. *)
Definition steady (w : World B) : Prop :=
  ∃ all, ListObjects (backend w) = Ok all
         ∧ StorageCache (server w) = filteredObjects all.

(** The blob store after the two deletes of a delete request. *)
Definition afterDeletes (c : Request) (b : B) : B :=
  (DeleteObject (DeleteObject b (packageFile c)).2 (provenanceFile c)).2.

(** What the goroutine of object [o] leaves in its slot. *)
Definition slotOf (b : B) (o : Object) : option ChartVersion :=
  match GetObject b (Path o) with
  | Ok fetched =>
      if (length (Content fetched) =? 0)%nat then None
      else match ChartVersionFromStorageObject fetched with
           | Ok chartVersion => Some chartVersion
           | Err _ => None
           end
  | Err _ => None
  end.
End BackendVocabulary.

(** The part of the backend contract that a repeated delete relies on:
    [DeleteObject] removes, it does not create, and it fails with
    [NotFound] on a path that [GetObject] reports as absent. *)
Class BackendContract (B : Type) `{!Backend B} : Prop := {
  DeleteObject_removes : ∀ (b : B) path,
    (DeleteObject b path).1 = None →
    GetObject (DeleteObject b path).2 path = Err NotFound;
  DeleteObject_keeps_absent : ∀ (b : B) path other,
    GetObject b path = Err NotFound →
    GetObject (DeleteObject b other).2 path = Err NotFound;
  DeleteObject_absent : ∀ (b : B) path,
    GetObject b path = Err NotFound → (DeleteObject b path).1 = Some NotFound
}.

(** ** Vocabulary of the further properties *)

Section MoreVocabulary.
Context {B : Type}.

(** The operation leaves the blob store alone. *)
Definition sameBackend (w w' : World B) : Prop := backend w' = backend w.

(** The worlds differ in their logs at most. *)
Definition upToLog (w1 w2 : World B) : Prop :=
  backend w1 = backend w2 ∧ server w1 = server w2 ∧ indexFiles w1 = indexFiles w2.

(** From worlds that differ in their logs at most, the two computations
    return the same value and leave worlds that differ in their logs at
    most. *)
Definition agree {A} (m1 m2 : M B A) : Prop :=
  ∀ w1 w2, upToLog w1 w2 →
    (m1 w1).1 = (m2 w2).1 ∧ upToLog (m1 w1).2 (m2 w2).2.
End MoreVocabulary.

Section PutVocabulary.
Context {B : Type} `{!Backend B}.

(** The first error of [PutObject] over the files in order, each on the
    store the previous one left. *)
Fixpoint putAll (files : list packageOrProvenanceFile) (b : B) : option error :=
  match files with
  | [] => None
  | ppf :: rest =>
      match PutObject b (filename ppf) (content ppf) with
      | (Some err, _) => Some err
      | (None, b') => putAll rest b'
      end
  end.
End PutVocabulary.

Section ModeVocabulary.
Context {B : Type}.

(** In refresh-on-read mode the operation leaves the index and the cache
    alone; in periodic mode nothing is said. *)
Definition idleIndex (w w' : World B) : Prop :=
  (0 <? CacheRefreshPeriod (server w)) = false → sameIndex w w'.
End ModeVocabulary.

(** ** Reasoning about monadic code *)

Section Respects.
Context {B : Type}.

Lemma respects_ret (R : relation (World B)) `{!Reflexive R} {A} (a : A) :
  respects R (ret a).
Proof. intros w. reflexivity. Qed.

Lemma respects_bind (R : relation (World B)) `{!Transitive R} {A C}
    (m : M B A) (k : A → M B C) :
  respects R m → (∀ a, respects R (k a)) → respects R (bind m k).
Proof.
  intros Hm Hk w. unfold bind. specialize (Hm w).
  destruct (m w) as [a w1]. specialize (Hk a w1). simpl in Hm.
  etransitivity; eassumption.
Qed.

Lemma returns_ret {A} (Q : A → Prop) (a : A) : Q a → returns (B:=B) Q (ret a).
Proof. intros Ha w. exact Ha. Qed.

Lemma returns_bind {A C} (Q : C → Prop) (m : M B A) (k : A → M B C) :
  (∀ a, returns Q (k a)) → returns Q (bind m k).
Proof. intros Hk w. unfold bind. destruct (m w) as [a w1]. apply Hk. Qed.

#[export] Instance sameStore_refl : Reflexive (sameStore (B:=B)).
Proof. intros w. split; reflexivity. Qed.

#[export] Instance sameStore_trans : Transitive (sameStore (B:=B)).
Proof. intros a b c [H1 H2] [H3 H4]. split; congruence. Qed.

#[export] Instance sameStore_preorder : PreOrder (sameStore (B:=B)).
Proof. split; apply _. Qed.

#[export] Instance logsOnly_refl : Reflexive (logsOnly (B:=B)).
Proof. intros w. repeat split; reflexivity. Qed.

#[export] Instance logsOnly_trans : Transitive (logsOnly (B:=B)).
Proof. intros a b c (H1 & H2 & H3) (H4 & H5 & H6). repeat split; congruence. Qed.

#[export] Instance logsOnly_preorder : PreOrder (logsOnly (B:=B)).
Proof. split; apply _. Qed.

#[export] Instance sameIndex_preorder : PreOrder (sameIndex (B:=B)).
Proof.
  split.
  - intros w. split; reflexivity.
  - intros a b c [H1 H2] [H3 H4]. split; congruence.
Qed.

#[export] Instance clearsRaw_preorder : PreOrder (clearsRaw (B:=B)).
Proof.
  split.
  - intros w. right. split; reflexivity.
  - intros a b c Hab [Hc|[Hr He]]; [left; exact Hc|].
    destruct Hab as [Hb|[Hr' He']].
    + left. congruence.
    + right. split; congruence.
Qed.

Lemma logsOnly_sameStore (w w' : World B) : logsOnly w w' → sameStore w w'.
Proof. intros (H1 & H2 & _). split; assumption. Qed.

Lemma sameIndex_clearsRaw (w w' : World B) : sameIndex w w' → clearsRaw w w'.
Proof.
  intros [Hs Hi]. right. unfold liveEntries, entriesOf. rewrite Hs, Hi.
  split; reflexivity.
Qed.

Lemma respects_logsOnly_sameStore {A} (m : M B A) :
  respects logsOnly m → respects sameStore m.
Proof. intros Hm w. apply logsOnly_sameStore, Hm. Qed.

Lemma respects_logsOnly_sameIndex {A} (m : M B A) :
  respects logsOnly m → respects sameIndex m.
Proof. intros Hm w. destruct (Hm w) as (_ & Hs & Hi). split; assumption. Qed.

Lemma respects_sameIndex_clearsRaw {A} (m : M B A) :
  respects sameIndex m → respects clearsRaw m.
Proof. intros Hm w. apply sameIndex_clearsRaw, Hm. Qed.

Lemma respects_Debugw (msg : string) (kv : list (string * string)) :
  respects logsOnly (Debugw (B:=B) msg kv).
Proof. intros w. repeat split; reflexivity. Qed.

Lemma respects_Warnw (msg : string) (kv : list (string * string)) :
  respects logsOnly (Warnw (B:=B) msg kv).
Proof. intros w. repeat split; reflexivity. Qed.

Lemma respects_getServer (R : relation (World B)) `{!Reflexive R} :
  respects R getServer.
Proof. intros w. reflexivity. Qed.

Lemma respects_getWorld (R : relation (World B)) `{!Reflexive R} :
  respects R getWorld.
Proof. intros w. reflexivity. Qed.
End Respects.

Create HintDb frame discriminated.

#[export] Hint Resolve respects_ret respects_getServer respects_getWorld
  respects_Debugw respects_Warnw : frame.
#[export] Hint Extern 5 (respects sameStore _) =>
  (apply respects_logsOnly_sameStore) : frame.
#[export] Hint Extern 5 (respects sameIndex _) =>
  (apply respects_logsOnly_sameIndex) : frame.
#[export] Hint Extern 5 (respects clearsRaw _) =>
  (apply respects_sameIndex_clearsRaw) : frame.

(** Walks down a monadic term: binds, returns, the branches of [match] and
    [if]; the leaves are closed from the hint database. *)
Ltac frame :=
  repeat first
    [ solve [auto with frame typeclass_instances]
    | apply respects_bind; [ try apply _ | | intros ? ]
    | match goal with
      | |- respects _ (match ?x with _ => _ end) => destruct x
      end ].

(** ** What the index operations and the reconciler steps may touch *)

Section ServerFrames.
Context {B : Type} `{!Backend B} `{!Decoder} `{!IndexAdapters} `{!Scheduler}.

Lemma respects_backendGetObject (R : relation (World B)) `{!Reflexive R}
    (path : string) :
  respects R (backendGetObject path).
Proof. intros w. reflexivity. Qed.

Lemma respects_backendListObjects (R : relation (World B)) `{!Reflexive R} :
  respects R backendListObjects.
Proof. intros w. reflexivity. Qed.

Lemma respects_updateEntries (index : Index)
    (f : gmap string (list ChartVersion) → gmap string (list ChartVersion)) :
  respects sameStore (updateEntries (B:=B) index f).
Proof. intros w. split; reflexivity. Qed.

Lemma respects_AddEntry (index : Index) (cv : ChartVersion) :
  respects sameStore (AddEntry (B:=B) index cv).
Proof. intros w. split; reflexivity. Qed.

Lemma respects_RemoveEntry (index : Index) (cv : ChartVersion) :
  respects sameStore (RemoveEntry (B:=B) index cv).
Proof. intros w. split; reflexivity. Qed.

Lemma respects_UpdateEntry (index : Index) (cv : ChartVersion) :
  respects sameStore (UpdateEntry (B:=B) index cv).
Proof. apply respects_AddEntry. Qed.

Lemma respects_Regenerate (index : Index) :
  respects logsOnly (Regenerate (B:=B) index).
Proof. intros w. unfold Regenerate. destruct (serialize _); reflexivity. Qed.

Lemma respects_checkInvalidChartPackageError (object : Object) (err : error)
    (action : string) :
  respects logsOnly (checkInvalidChartPackageError (B:=B) object err action).
Proof. unfold checkInvalidChartPackageError. destruct err; frame. Qed.

Lemma respects_getObjectChartVersion (R : relation (World B)) `{!Reflexive R}
    (object : Object) (load : bool) :
  respects R (getObjectChartVersion object load).
Proof.
  intros w. unfold getObjectChartVersion, bind, backendGetObject.
  destruct load; [|reflexivity].
  destruct (GetObject _ _); [|reflexivity].
  destruct (_ =? _)%nat; reflexivity.
Qed.

Lemma respects_listObjectsGetDiff (R : relation (World B)) `{!Reflexive R} :
  respects R listObjectsGetDiff.
Proof.
  intros w. unfold listObjectsGetDiff, bind, backendListObjects.
  destruct (ListObjects _); reflexivity.
Qed.

Hint Resolve respects_backendGetObject respects_backendListObjects
  respects_updateEntries respects_AddEntry respects_RemoveEntry
  respects_UpdateEntry respects_Regenerate
  respects_checkInvalidChartPackageError respects_getObjectChartVersion
  respects_listObjectsGetDiff : frame.

Lemma respects_removeIndexObject (index : Index) (object : Object) :
  respects sameStore (removeIndexObject index object).
Proof. unfold removeIndexObject. frame. Qed.

Lemma respects_updateIndexObject (index : Index) (object : Object) :
  respects sameStore (updateIndexObject index object).
Proof. unfold updateIndexObject. frame. Qed.

Lemma respects_forEachObject (R : relation (World B)) `{!PreOrder R}
    (f : Index → Object → M B (option error * Index)) (objects : list Object) :
  (∀ index object, respects R (f index object)) →
  ∀ index, respects R (forEachObject f index objects).
Proof.
  intros Hf. induction objects as [|object rest IH]; intros index; simpl.
  - apply respects_ret, _.
  - apply respects_bind; [apply _ | apply Hf |].
    intros [[err|] index']; simpl; [apply respects_ret, _ | apply IH].
Qed.

Lemma respects_loadGoroutine (i : nat) (o : Object) (err : option error)
    (loaded : list (option ChartVersion)) :
  respects logsOnly (loadGoroutine i o err loaded).
Proof. unfold loadGoroutine. frame. Qed.

Lemma respects_runGoroutines (schedule : list nat) (objects : list Object) :
  ∀ err loaded, respects logsOnly (runGoroutines schedule objects err loaded).
Proof.
  induction schedule as [|i rest IH]; intros err loaded; simpl.
  - frame.
  - destruct (objects !! i); [|apply IH].
    apply respects_bind; [apply _ | apply respects_loadGoroutine |].
    intros [err' loaded']. apply IH.
Qed.

Lemma respects_addLoaded (loaded : list (option ChartVersion)) :
  ∀ index, respects sameStore (addLoaded (B:=B) index loaded).
Proof.
  induction loaded as [|[cv|] rest IH]; intros index; simpl.
  - frame.
  - apply respects_bind; [apply _ | frame |]. intros _.
    apply respects_bind; [apply _ | frame |]. intros index'. apply IH.
  - apply IH.
Qed.

Hint Resolve respects_removeIndexObject respects_updateIndexObject
  respects_loadGoroutine respects_runGoroutines respects_addLoaded : frame.

Lemma respects_addIndexObjectsAsync (index : Index) (objects : list Object) :
  respects sameStore (addIndexObjectsAsync index objects).
Proof.
  unfold addIndexObjectsAsync. destruct (_ =? _)%nat; [frame|].
  apply respects_bind; [apply _ | frame |]. intros _.
  apply respects_bind; [apply _ | frame |]. intros [[err|] loaded]; simpl; frame.
Qed.
End ServerFrames.

#[export] Hint Resolve respects_backendGetObject respects_backendListObjects
  respects_updateEntries respects_AddEntry respects_RemoveEntry
  respects_UpdateEntry respects_Regenerate
  respects_checkInvalidChartPackageError respects_getObjectChartVersion
  respects_listObjectsGetDiff respects_removeIndexObject
  respects_updateIndexObject respects_loadGoroutine respects_runGoroutines
  respects_addLoaded respects_addIndexObjectsAsync : frame.

(** ** The object diff on a steady state *)

Lemma pathTable_lookup (l : list Object) (o : Object) :
  NoDup (Path <$> l) → o ∈ l → pathTable l !! Path o = Some o.
Proof.
  intros Hnd Hin. unfold pathTable.
  apply elem_of_list_to_map_1.
  - rewrite <- list_fmap_compose. exact Hnd.
  - apply (list_elem_of_fmap_2 (λ o, (Path o, o))). exact Hin.
Qed.

Lemma filter_none {A} (P : A → Prop) `{!∀ x, Decision (P x)} (l : list A) :
  (∀ x, x ∈ l → ¬ P x) → filter P l = [].
Proof.
  induction l as [|x l IH]; intros Hl; [reflexivity|].
  rewrite filter_cons. destruct (decide (P x)) as [HP|_].
  - exfalso. apply (Hl x); [left | exact HP].
  - apply IH. intros y Hy. apply Hl. right. exact Hy.
Qed.

Lemma GetObjectSliceDiff_same (l : list Object) :
  NoDup (Path <$> l) → GetObjectSliceDiff l l =
    {| Change := false; Removed := []; Added := []; Updated := [] |}.
Proof.
  intros Hnd. unfold GetObjectSliceDiff.
  assert (Hadd : filter (λ o, pathTable l !! Path o = None) l = []).
  { apply filter_none. intros o Ho. rewrite (pathTable_lookup l o Hnd Ho). discriminate. }
  assert (Hupd : filter (λ n, metaDiffers (pathTable l) n) l = []).
  { apply filter_none. intros o Ho. unfold metaDiffers.
    rewrite (pathTable_lookup l o Hnd Ho).
    rewrite bool_decide_eq_false_2; [intros []|]. intros Hne. apply Hne. reflexivity. }
  rewrite Hadd, Hupd. reflexivity.
Qed.

Lemma NoDup_paths_filter (P : Object → Prop) `{!∀ x, Decision (P x)} (l : list Object) :
  NoDup (Path <$> l) → NoDup (Path <$> filter P l).
Proof.
  intros Hnd. eapply sublist_NoDup; [exact Hnd|].
  apply fmap_sublist, sublist_filter.
Qed.

(** ** The outcome of a reconcile *)

Section Reconcile.
Context {B : Type} `{!Backend B} `{!Decoder} `{!IndexAdapters} `{!Scheduler}.

Lemma listObjectsGetDiff_eq (w : World B) :
  listObjectsGetDiff w =
  (match ListObjects (backend w) with
   | Err err => Err err
   | Ok allObjects =>
       Ok (filteredObjects allObjects,
           GetObjectSliceDiff (StorageCache (server w)) (filteredObjects allObjects))
   end, w).
Proof.
  unfold listObjectsGetDiff, bind, backendListObjects.
  destruct (ListObjects _); reflexivity.
Qed.

Lemma regenerateRepositoryIndex_outcome (w : World B) :
  backend (regenerateRepositoryIndex w).2 = backend w ∧
  match (regenerateRepositoryIndex w).1 with
  | Some _ => server (regenerateRepositoryIndex w).2 = server w
  | None =>
      ∃ all index,
        ListObjects (backend w) = Ok all ∧
        server (regenerateRepositoryIndex w).2 =
          setStorageCache (filteredObjects all) (setRepositoryIndex index (server w))
  end.
Proof.
  unfold regenerateRepositoryIndex, withStorageCacheLock, bind. simpl.
  rewrite listObjectsGetDiff_eq. simpl.
  destruct (ListObjects _) as [all|e]; simpl; [|split; reflexivity].
  match goal with |- context [forEachObject removeIndexObject ?i ?l ?w0] =>
    pose proof (respects_forEachObject sameStore removeIndexObject l
                  respects_removeIndexObject i w0) as F1;
    destruct (forEachObject removeIndexObject i l w0) as [[e1 i1] w1]
  end.
  destruct F1 as [Fb1 Fs1]; simpl in Fb1, Fs1.
  destruct e1 as [e1|]; simpl; [split; assumption|].
  match goal with |- context [forEachObject updateIndexObject ?i ?l ?w0] =>
    pose proof (respects_forEachObject sameStore updateIndexObject l
                  respects_updateIndexObject i w0) as F2;
    destruct (forEachObject updateIndexObject i l w0) as [[e2 i2] w2]
  end.
  destruct F2 as [Fb2 Fs2]; simpl in Fb2, Fs2.
  destruct e2 as [e2|]; simpl; [split; congruence|].
  match goal with |- context [addIndexObjectsAsync ?i ?l ?w0] =>
    pose proof (respects_addIndexObjectsAsync i l w0) as F3;
    destruct (addIndexObjectsAsync i l w0) as [[e3 i3] w3]
  end.
  destruct F3 as [Fb3 Fs3]; simpl in Fb3, Fs3.
  destruct e3 as [e3|]; simpl; [split; congruence|].
  match goal with |- context [Regenerate ?i ?w0] =>
    pose proof (respects_Regenerate i w0) as F4;
    destruct (Regenerate i w0) as [[e4 i4] w4]
  end.
  destruct F4 as (Fb4 & Fs4 & _); simpl in Fb4, Fs4.
  destruct e4 as [e4|]; simpl; [split; congruence|].
  split; [congruence|]. exists all, i4. split; [reflexivity|].
  rewrite Fs4, Fs3, Fs2, Fs1. reflexivity.
Qed.

Lemma regenerateRepositoryIndex_steady (w0 w1 : World B) :
  regenerateRepositoryIndex w0 = (None, w1) → steady w1.
Proof.
  intros Hr. pose proof (regenerateRepositoryIndex_outcome w0) as [Hb Hs].
  rewrite Hr in Hb, Hs. simpl in Hb, Hs.
  destruct Hs as (all & index & Hall & Hs).
  exists all. rewrite Hb, Hs. split; [exact Hall | reflexivity].
Qed.

Lemma steady_no_change (w : World B) :
  (∀ all, ListObjects (backend w) = Ok all → NoDup (Path <$> all)) →
  steady w →
  ∃ objects diff,
    listObjectsGetDiff w = (Ok (objects, diff), w) ∧ Change diff = false.
Proof.
  intros Hnd (all & Hall & Hcache).
  rewrite listObjectsGetDiff_eq, Hall, Hcache.
  eexists _, _. split; [reflexivity|].
  rewrite GetObjectSliceDiff_same; [reflexivity|].
  apply NoDup_paths_filter, Hnd, Hall.
Qed.

Lemma syncRepositoryIndex_no_change (w : World B) (objects : list Object)
    (diff : ObjectSliceDiff) :
  listObjectsGetDiff w = (Ok (objects, diff), w) → Change diff = false →
  syncRepositoryIndex w = (None, w).
Proof.
  intros Hl Hc. unfold syncRepositoryIndex, bind. rewrite Hl, Hc. reflexivity.
Qed.

Lemma syncRepositoryIndex_success (w0 w1 : World B) :
  syncRepositoryIndex w0 = (None, w1) →
  regenerateRepositoryIndex w0 = (None, w1)
  ∨ (w1 = w0 ∧ ∃ objects diff,
       listObjectsGetDiff w0 = (Ok (objects, diff), w0) ∧ Change diff = false).
Proof.
  unfold syncRepositoryIndex, bind. rewrite listObjectsGetDiff_eq.
  destruct (ListObjects _) as [all|e]; [|discriminate].
  destruct (Change (GetObjectSliceDiff _ _)) eqn:Hc; simpl; [left; assumption|].
  intros [= <-]. right. split; [reflexivity|].
  eexists _, _. split; [reflexivity | exact Hc].
Qed.

(** C7.  Take a reconcile that succeeds, started on a read
    ([syncRepositoryIndex]) or by the ticker ([regenerateRepositoryIndex]),
    over a listing whose paths are unique, and leave the blob store as it
    is.  The diff of the next reconcile reports no change, and the next
    refresh-on-read reconcile returns without error and without touching
    the world: index, cache, store and log are the ones it found. *)
Theorem reconcile_idempotent_on_steady_state (w0 w1 : World B) :
  (∀ all, ListObjects (backend w0) = Ok all → NoDup (Path <$> all)) →
  syncRepositoryIndex w0 = (None, w1) ∨ regenerateRepositoryIndex w0 = (None, w1) →
  (∃ objects diff,
     listObjectsGetDiff w1 = (Ok (objects, diff), w1) ∧ Change diff = false)
  ∧ syncRepositoryIndex w1 = (None, w1).
Proof.
  intros Hnd Hfirst.
  assert (Hdiff : ∃ objects diff,
            listObjectsGetDiff w1 = (Ok (objects, diff), w1) ∧ Change diff = false).
  { assert (Hreg : regenerateRepositoryIndex w0 = (None, w1) → ∃ objects diff,
              listObjectsGetDiff w1 = (Ok (objects, diff), w1) ∧ Change diff = false).
    { intros Hr. apply steady_no_change.
      - pose proof (regenerateRepositoryIndex_outcome w0) as [Hb _].
        rewrite Hr in Hb. simpl in Hb. rewrite Hb. exact Hnd.
      - eapply regenerateRepositoryIndex_steady, Hr. }
    destruct Hfirst as [Hs|Hr]; [|exact (Hreg Hr)].
    destruct (syncRepositoryIndex_success _ _ Hs) as [Hr|[-> Hsame]];
      [exact (Hreg Hr) | exact Hsame]. }
  split; [exact Hdiff|].
  destruct Hdiff as (objects & diff & Hl & Hc).
  eapply syncRepositoryIndex_no_change; eassumption.
Qed.
End Reconcile.


(** ** The parallel loader *)

Section Loader.
Context {B : Type} `{!Backend B} `{!Decoder} `{!IndexAdapters} `{!Scheduler}.

Lemma loadGoroutine_err (i : nat) (o : Object) (err : option error)
    (loaded : list (option ChartVersion)) (w : World B) :
  (loadGoroutine i o err loaded w).1.1 = err.
Proof.
  unfold loadGoroutine, bind. destruct err as [e|]; [reflexivity|].
  destruct (getObjectChartVersion o true w) as [[cv|e] w1]; [reflexivity|].
  destruct (checkInvalidChartPackageError o e "added" w1). reflexivity.
Qed.

Lemma runGoroutines_err (schedule : list nat) (objects : list Object) :
  ∀ err loaded (w : World B),
    (runGoroutines schedule objects err loaded w).1.1 = err.
Proof.
  induction schedule as [|i rest IH]; intros err loaded w; simpl; [reflexivity|].
  destruct (objects !! i) as [o|]; [|apply IH].
  unfold bind. pose proof (loadGoroutine_err i o err loaded w) as He.
  destruct (loadGoroutine i o err loaded w) as [[err' loaded'] w1].
  simpl in He. subst err'. apply IH.
Qed.

(** The error variable of [addIndexObjectsAsync] is [nil] when the
    goroutines are ran, whatever they met: the function never reports an
    error. *)
Lemma addIndexObjectsAsync_returns_nil (index : Index) (objects : list Object)
    (w : World B) :
  (addIndexObjectsAsync index objects w).1.1 = None.
Proof.
  unfold addIndexObjectsAsync. destruct (_ =? _)%nat; [reflexivity|].
  unfold bind at 1. simpl. unfold bind at 1.
  match goal with
  | |- context [runGoroutines ?s ?o None ?l ?w0] =>
      pose proof (runGoroutines_err s o None l w0) as He;
      destruct (runGoroutines s o None l w0) as [[err loaded] w1]
  end.
  simpl in He. subst err. simpl. unfold bind.
  destruct (addLoaded index loaded w1). reflexivity.
Qed.

Lemma loadGoroutine_loaded (i : nat) (o : Object)
    (loaded : list (option ChartVersion)) (w : World B) :
  (loadGoroutine i o None loaded w).1.2
  = match slotOf (backend w) o with
    | Some chartVersion => <[i := Some chartVersion]> loaded
    | None => loaded
    end.
Proof.
  unfold loadGoroutine, getObjectChartVersion, backendGetObject, slotOf, bind, ret.
  destruct (GetObject (backend w) (Path o)) as [fetched|e]; simpl.
  - destruct (_ =? _)%nat; simpl.
    + reflexivity.
    + destruct (ChartVersionFromStorageObject fetched) as [cv|e]; simpl; [reflexivity|].
      destruct (checkInvalidChartPackageError o e "added" w). reflexivity.
  - destruct (checkInvalidChartPackageError o e "added" w). reflexivity.
Qed.

Lemma runGoroutines_slots (objects : list Object) (schedule : list nat) :
  ∀ (ran : list nat) (loaded : list (option ChartVersion)) (w : World B),
    length loaded = length objects →
    (∀ i o, objects !! i = Some o →
       loaded !! i = Some (if decide (i ∈ ran) then slotOf (backend w) o else None)) →
    length (runGoroutines schedule objects None loaded w).1.2 = length objects
    ∧ ∀ i o, objects !! i = Some o →
        (runGoroutines schedule objects None loaded w).1.2 !! i
        = Some (if decide (i ∈ (ran ++ schedule)%list) then slotOf (backend w) o else None).
Proof.
  induction schedule as [|j rest IH]; intros ran loaded w Hlen Hinv;
    cbn [runGoroutines].
  - split; [exact Hlen|]. intros i o Hi. rewrite app_nil_r. apply Hinv, Hi.
  - destruct (objects !! j) as [oj|] eqn:Hj.
    + unfold bind.
      pose proof (loadGoroutine_err j oj None loaded w) as He.
      pose proof (loadGoroutine_loaded j oj loaded w) as Hl.
      pose proof (respects_loadGoroutine j oj None loaded w) as (Hb & _ & _).
      destruct (loadGoroutine j oj None loaded w) as [[err loaded1] w1].
      simpl in He, Hl, Hb. subst err.
      specialize (IH (ran ++ [j])%list loaded1 w1).
      rewrite Hb in IH. rewrite <- (assoc_L (++)) in IH. simpl in IH.
      cbn [fst snd]. apply IH.
      * subst loaded1. destruct (slotOf (backend w) oj); [rewrite length_insert|]; exact Hlen.
      * intros i o Hi. specialize (Hinv i o Hi). subst loaded1.
        destruct (decide (i = j)) as [->|Hne].
        -- assert (o = oj) by congruence. subst o.
           rewrite decide_True by (apply elem_of_app; right; apply list_elem_of_singleton; reflexivity).
           destruct (slotOf (backend w) oj) as [cv|] eqn:Hslot.
           ++ apply list_lookup_insert_eq. rewrite Hlen. eapply lookup_lt_Some, Hj.
           ++ rewrite Hinv. destruct (decide (j ∈ ran)); reflexivity.
        -- assert (Hsame : (if decide (i ∈ (ran ++ [j])%list) then slotOf (backend w) o else None)
                           = (if decide (i ∈ ran) then slotOf (backend w) o else None)).
           { destruct (decide (i ∈ ran)) as [Hd|Hd].
             - rewrite decide_True by (apply elem_of_app; left; exact Hd). reflexivity.
             - rewrite decide_False; [reflexivity|].
               intros [Hin|Hin]%elem_of_app; [exact (Hd Hin)|].
               apply list_elem_of_singleton in Hin. exact (Hne Hin). }
           rewrite Hsame.
           destruct (slotOf (backend w) oj); [rewrite list_lookup_insert_ne by congruence|];
             exact Hinv.
    + specialize (IH ran loaded w Hlen Hinv). simpl in IH.
      destruct IH as [IHlen IHinv]. split; [exact IHlen|].
      intros i o Hi. rewrite (IHinv i o Hi).
      assert (i ≠ j) by congruence.
      destruct (decide (i ∈ (ran ++ rest)%list)) as [Hd|Hd].
      * rewrite decide_True; [reflexivity|].
        apply elem_of_app in Hd as [Hd|Hd]; apply elem_of_app; [left; exact Hd|].
        right. right. exact Hd.
      * rewrite decide_False; [reflexivity|].
        intros [Hin|Hin]%elem_of_app; apply Hd, elem_of_app; [left; exact Hin|].
        right. apply elem_of_cons in Hin as [Hin|Hin]; [congruence | exact Hin].
Qed.

(** Whatever order the scheduler picks, the goroutines leave in slot [i]
    the chart version of object [i], or [nil] when its fetch or its decoding
    failed, for whatever reason. *)
Lemma runGoroutines_loaded (objects : list Object) (w : World B) :
  (runGoroutines (goSchedule (length objects)) objects None
                 (replicate (length objects) None) w).1.2
  = slotOf (backend w) <$> objects.
Proof.
  destruct (runGoroutines_slots objects (goSchedule (length objects)) []
              (replicate (length objects) None) w) as [Hlen Hslots].
  - apply length_replicate.
  - intros i o Hi. rewrite decide_False by apply not_elem_of_nil.
    apply lookup_replicate_2. eapply lookup_lt_Some, Hi.
  - apply list_eq. intros i. rewrite list_lookup_fmap.
    destruct (objects !! i) as [o|] eqn:Hi; simpl.
    + rewrite (Hslots i o Hi). rewrite decide_True; [reflexivity|].
      simpl. rewrite (goSchedule_perm (length objects)).
      apply elem_of_seq. split; [lia|]. simpl. eapply lookup_lt_Some, Hi.
    + apply lookup_ge_None. rewrite Hlen. apply lookup_ge_None, Hi.
Qed.
End Loader.

(** ** The incremental paths *)

Section Incremental.
Context {B : Type} `{!Backend B} `{!Decoder} `{!IndexAdapters} `{!Scheduler}.

Lemma clearsRaw_I1 (w w' : World B) : I1 w → clearsRaw w w' → I1 w'.
Proof.
  intros HI [Hc|[Hr He]]; [left; exact Hc|].
  unfold I1. rewrite Hr, He. exact HI.
Qed.

Lemma respects_backendPutObject (path : string) (c : bytes) :
  respects sameIndex (backendPutObject path c).
Proof. intros w. split; reflexivity. Qed.

Lemma respects_backendDeleteObject (path : string) :
  respects sameIndex (backendDeleteObject path).
Proof. intros w. split; reflexivity. Qed.

Lemma addChartPackage_backend (object : Object) (w : World B) :
  backend (addChartPackage object w).2 = backend w.
Proof.
  unfold addChartPackage, bind, getServer, putServer, getObjectChartVersion,
    checkInvalidChartPackageError, ret.
  simpl. destruct (ChartVersionFromStorageObject object) as [cv|[]]; reflexivity.
Qed.

Lemma removeChartPackage_backend (filename : string) (w : World B) :
  backend (removeChartPackage filename w).2 = backend w.
Proof.
  unfold removeChartPackage, bind, getServer, putServer, removeIndexObject,
    getObjectChartVersion, checkInvalidChartPackageError, ret.
  simpl. destruct (list_find _ _) as [[idx obj]|]; simpl; [|reflexivity].
  destruct (ChartVersionFromStorageObject obj) as [cv|[]]; reflexivity.
Qed.

(** When decoding fails with an error other than
    [ErrorInvalidChartPackage], [addChartPackage] returns that error and
    the cache keeps the object it appended first. *)
Lemma addChartPackage_decode_error (object : Object) (e : error) (w : World B) :
  ChartVersionFromStorageObject object = Err e →
  e ≠ ErrorInvalidChartPackage →
  addChartPackage object w
  = (Some e, setServer (setStorageCache (StorageCache (server w) ++ [object])
                                        (server w)) w).
Proof.
  intros Hdecode Hne.
  unfold addChartPackage, getObjectChartVersion, checkInvalidChartPackageError,
    getServer, putServer, bind, ret.
  simpl. rewrite Hdecode. destruct e; [contradiction | reflexivity ..].
Qed.

Lemma respects_addChartPackage (object : Object) :
  respects clearsRaw (addChartPackage object).
Proof.
  intros w. unfold addChartPackage, bind, getServer, putServer,
    getObjectChartVersion, checkInvalidChartPackageError, ret. simpl.
  destruct (ChartVersionFromStorageObject object) as [cv|e]; simpl.
  - left. reflexivity.
  - destruct e; right; split; reflexivity.
Qed.

Lemma respects_removeChartPackage (filename : string) :
  respects clearsRaw (removeChartPackage filename).
Proof.
  intros w. unfold removeChartPackage, bind, getServer, putServer,
    removeIndexObject, getObjectChartVersion, checkInvalidChartPackageError, ret.
  simpl. destruct (list_find _ _) as [[idx obj]|]; simpl; [|reflexivity].
  destruct (ChartVersionFromStorageObject obj) as [cv|e]; simpl.
  - left. reflexivity.
  - destruct e; simpl; right; split; try reflexivity; destruct (RepositoryIndex (server w)); reflexivity.
Qed.

Lemma removeChartPackage_cached (filename : string) (w : World B) (idx : nat)
    (obj : Object) (cv : ChartVersion) :
  list_find (λ o, Path o = filename) (StorageCache (server w)) = Some (idx, obj) →
  ChartVersionFromStorageObject obj = Ok cv →
  (removeChartPackage filename w).1 = None
  ∧ liveEntries (removeChartPackage filename w).2
    = IndexModel.removeEntry cv (liveEntries w)
  ∧ StorageCache (server (removeChartPackage filename w).2)
    = (take idx (StorageCache (server w)) ++ drop (S idx) (StorageCache (server w)))%list.
Proof.
  intros Hfind Hcv.
  unfold removeChartPackage, bind, getServer, putServer, removeIndexObject,
    getObjectChartVersion, ret.
  simpl. rewrite Hfind. simpl. rewrite Hcv. simpl.
  repeat split. unfold liveEntries, entriesOf. simpl.
  apply lookup_total_insert_eq.
Qed.

Lemma removeChartPackage_not_cached (filename : string) (w : World B) :
  list_find (λ o, Path o = filename) (StorageCache (server w)) = None →
  removeChartPackage filename w
  = (Some (Errorf ("chart with filename '" +:+ filename +:+ "' not found")), w).
Proof.
  intros Hfind. unfold removeChartPackage, bind, getServer. rewrite Hfind.
  reflexivity.
Qed.

Lemma removeEntry_drops_version (cv : ChartVersion)
    (e : gmap string (list ChartVersion)) :
  Version cv ∉ versionsAt (IndexModel.removeEntry cv e) (Name cv).
Proof.
  unfold versionsAt, IndexModel.removeEntry.
  destruct (e !! Name cv) as [l|] eqn:Hl.
  - assert (Hdrop : Version cv ∉ Version <$> IndexModel.dropVersion (Version cv) l).
    { intros Hin. apply list_elem_of_fmap in Hin as (x & Hx & Hin).
      apply list_elem_of_filter in Hin as [Hne _]. congruence. }
    destruct (IndexModel.dropVersion (Version cv) l) as [|x l'] eqn:Hd.
    + rewrite lookup_delete_eq. simpl. apply not_elem_of_nil.
    + rewrite lookup_insert_eq. simpl. exact Hdrop.
  - rewrite Hl. simpl. apply not_elem_of_nil.
Qed.
End Incremental.

#[export] Hint Resolve respects_backendPutObject respects_backendDeleteObject
  respects_addChartPackage respects_removeChartPackage : frame.

(** ** The handlers *)

Section HandlerProperties.
Context {B : Type} `{!Backend B} `{!Decoder} `{!IndexAdapters} `{!Scheduler}.

Lemma respects_withStorageCacheLock (R : relation (World B)) `{!PreOrder R} {A}
    (body : M B A) :
  (∀ msg kv, respects R (Debugw msg kv)) →
  respects R body → respects R (withStorageCacheLock body).
Proof.
  intros Hlog Hbody. unfold withStorageCacheLock.
  repeat (apply respects_bind; [apply _ | first [apply Hlog | exact Hbody] | intros ?]).
  apply respects_ret, _.
Qed.

Lemma respects_lockIfPeriodic (R : relation (World B)) `{!PreOrder R} {A}
    (body : M B A) :
  (∀ msg kv, respects R (Debugw msg kv)) →
  respects R body → respects R (lockIfPeriodic body).
Proof.
  intros Hlog Hbody. unfold lockIfPeriodic.
  apply respects_bind; [apply _ | apply respects_getServer, _ |]. intros s.
  destruct (0 <? _); [apply respects_withStorageCacheLock; assumption | exact Hbody].
Qed.

Lemma clearsRaw_Debugw (msg : string) (kv : list (string * string)) :
  respects clearsRaw (Debugw (B:=B) msg kv).
Proof. frame. Qed.

Lemma respects_extractAndValidateFormFile (req : Request) (field : string)
    (fn : bytes → result string) :
  respects sameIndex (extractAndValidateFormFile req field fn).
Proof. unfold extractAndValidateFormFile. frame. Qed.

Lemma respects_extractFormFiles (req : Request)
    (ffp : list (string * (bytes → result string))) :
  ∀ ppFiles, respects sameIndex (extractFormFiles req ffp ppFiles).
Proof.
  induction ffp as [|ff rest IH]; intros ppFiles; simpl; [frame|].
  apply respects_bind; [apply _ | apply respects_extractAndValidateFormFile |].
  intros [[[ppf|] st] [err|]]; first [apply IH | frame].
Qed.

Lemma respects_deleteStoredFiles (storedFiles : list packageOrProvenanceFile) :
  respects sameIndex (deleteStoredFiles storedFiles).
Proof.
  induction storedFiles as [|ppf rest IH]; simpl; [frame|].
  apply respects_bind; [apply _ | frame |]. intros _. exact IH.
Qed.

Hint Resolve respects_extractFormFiles respects_deleteStoredFiles : frame.

Lemma respects_storeFiles (ppFiles : list packageOrProvenanceFile) :
  ∀ storedFiles, respects clearsRaw (storeFiles ppFiles storedFiles).
Proof.
  induction ppFiles as [|ppf rest IH]; intros storedFiles; simpl; [frame|].
  apply respects_bind; [apply _ | frame |]. intros _.
  apply respects_bind; [apply _ | frame |]. intros [err|]; [frame|].
  apply respects_bind; [apply _ | frame |]. intros s.
  apply respects_bind; [apply _ | | intros _; apply IH].
  destruct (_ && _); frame.
Qed.

Hint Resolve respects_storeFiles : frame.

Lemma respects_postPackageAndProvenanceRequestHandler (c : Request) :
  respects clearsRaw (postPackageAndProvenanceRequestHandler c).
Proof.
  unfold postPackageAndProvenanceRequestHandler.
  apply respects_lockIfPeriodic; [apply _ | apply clearsRaw_Debugw |].
  apply respects_bind; [apply _ | frame |]. intros s.
  apply respects_bind; [apply _ | frame |]. intros [response|ppFiles]; [frame|].
  destruct (_ =? _)%nat; frame.
Qed.

Lemma respects_postPackageRequestHandler (c : Request) :
  respects clearsRaw (postPackageRequestHandler c).
Proof.
  unfold postPackageRequestHandler.
  apply respects_lockIfPeriodic; [apply _ | apply clearsRaw_Debugw |].
  destruct (RawData c); [|frame].
  destruct (ChartPackageFilenameFromContent _); [|frame].
  apply respects_bind; [apply _ | frame |]. intros s.
  apply respects_bind; [apply _ | destruct (negb _); frame |]. intros [|]; [frame|].
  apply respects_bind; [apply _ | frame |]. intros _.
  apply respects_bind; [apply _ | frame |]. intros [err|]; [frame|].
  apply respects_bind; [apply _ | frame |]. intros s'.
  destruct (0 <? _); frame.
Qed.

Lemma respects_deleteChartVersionRequestHandler (c : Request) :
  respects clearsRaw (deleteChartVersionRequestHandler c).
Proof.
  unfold deleteChartVersionRequestHandler.
  apply respects_lockIfPeriodic; [apply _ | apply clearsRaw_Debugw |].
  apply respects_bind; [apply _ | frame |]. intros _.
  apply respects_bind; [apply _ | frame |]. intros [err|]; [frame|].
  apply respects_bind; [apply _ | frame |]. intros _.
  apply respects_bind; [apply _ | frame |]. intros s.
  destruct (0 <? _); frame.
Qed.

Lemma storeFiles_status (ppFiles : list packageOrProvenanceFile) :
  ∀ storedFiles,
    returns (B:=B) (λ r, status r = 201 ∨ status r = 500)
            (storeFiles ppFiles storedFiles).
Proof.
  induction ppFiles as [|ppf rest IH]; intros storedFiles; simpl.
  - apply returns_ret. left. reflexivity.
  - apply returns_bind. intros _. apply returns_bind. intros [err|].
    + apply returns_bind. intros _. apply returns_ret. right. reflexivity.
    + apply returns_bind. intros s. apply returns_bind. intros _. apply IH.
Qed.





Lemma deleteChartVersionRequestHandler_backend (c : Request) (w : World B) :
  (DeleteObject (backend w) (packageFile c)).1 = None →
  backend (deleteChartVersionRequestHandler c w).2 = afterDeletes c (backend w).
Proof.
  intros Hdel.
  unfold deleteChartVersionRequestHandler, lockIfPeriodic, withStorageCacheLock,
    bind, backendDeleteObject, getServer, afterDeletes.
  fold (packageFile c) (provenanceFile c).
  destruct (0 <? CacheRefreshPeriod (server w)) eqn:Hp;
    cbn -[removeChartPackage]; rewrite Hdel; cbn -[removeChartPackage];
    rewrite ?Hp; cbn -[removeChartPackage]; [|reflexivity].
  match goal with
  | |- context [removeChartPackage ?f ?w0] =>
      pose proof (removeChartPackage_backend f w0) as Hb;
      destruct (removeChartPackage f w0) as [[e|] w1]
  end; exact Hb.
Qed.

Lemma deleteChartVersionRequestHandler_not_found (c : Request) (w : World B)
    (e : error) :
  (DeleteObject (backend w) (packageFile c)).1 = Some e →
  (deleteChartVersionRequestHandler c w).1 = JSON 404 notFoundErrorResponse
  ∧ backend (deleteChartVersionRequestHandler c w).2
    = (DeleteObject (backend w) (packageFile c)).2
  ∧ server (deleteChartVersionRequestHandler c w).2 = server w
  ∧ indexFiles (deleteChartVersionRequestHandler c w).2 = indexFiles w.
Proof.
  intros Hdel.
  unfold deleteChartVersionRequestHandler, lockIfPeriodic, withStorageCacheLock,
    bind, backendDeleteObject, getServer.
  fold (packageFile c).
  destruct (0 <? _); simpl; rewrite Hdel; repeat split; reflexivity.
Qed.


(** Invariant I1 under the incremental mutations.  An upload or a delete, in either
    refresh mode and whatever its outcome, keeps I1 of the live index, and
    it does so by the first alternative of I1 only: it either clears [Raw]
    (what [AddEntry] and [RemoveEntry] do) or leaves [Raw] and the entries
    as they are.  It never brings [Raw] up to date with entries it
    changed. *)
Lemma incremental_mutations_keep_I1 (c : Request) (w : World B) :
  I1 w →
  (I1 (postPackageRequestHandler c w).2
   ∧ clearsRaw w (postPackageRequestHandler c w).2)
  ∧ (I1 (postPackageAndProvenanceRequestHandler c w).2
     ∧ clearsRaw w (postPackageAndProvenanceRequestHandler c w).2)
  ∧ (I1 (deleteChartVersionRequestHandler c w).2
     ∧ clearsRaw w (deleteChartVersionRequestHandler c w).2).
Proof.
  intros HI.
  pose proof (respects_postPackageRequestHandler c w) as Hraw.
  pose proof (respects_postPackageAndProvenanceRequestHandler c w) as Hform.
  pose proof (respects_deleteChartVersionRequestHandler c w) as Hdel.
  repeat split; first [assumption | eapply clearsRaw_I1; eassumption].
Qed.

(** C8, as amended.  Take a delete of (name, version) whose [DeleteObject]
    on the package file succeeds, over a backend that honours its contract.
    The handler deletes the package file, then the provenance file,
    whatever the second delete reports.  In refresh-on-read mode it answers
    200 and leaves index and cache alone.  In periodic mode,
    when the cache holds an object at that path and the object decodes, it
    answers 200, removes the decoded version from the entries of its name
    and the object from the cache; when the cache has no such object it
    answers 500 and leaves index and cache alone.  A second delete of the
    same (name, version) answers 404. *)
Theorem delete_version `{!BackendContract B} (c : Request) (w : World B) :
  (DeleteObject (backend w) (packageFile c)).1 = None →
  backend (deleteChartVersionRequestHandler c w).2 = afterDeletes c (backend w)
  ∧ (CacheRefreshPeriod (server w) ≤ 0 →
     (deleteChartVersionRequestHandler c w).1 = JSON 200 objectDeletedResponse
     ∧ server (deleteChartVersionRequestHandler c w).2 = server w
     ∧ indexFiles (deleteChartVersionRequestHandler c w).2 = indexFiles w)
  ∧ (0 < CacheRefreshPeriod (server w) →
     (∀ idx obj cv,
        list_find (λ o, Path o = packageFile c) (StorageCache (server w))
        = Some (idx, obj) →
        ChartVersionFromStorageObject obj = Ok cv →
        (deleteChartVersionRequestHandler c w).1 = JSON 200 objectDeletedResponse
        ∧ liveEntries (deleteChartVersionRequestHandler c w).2
          = IndexModel.removeEntry cv (liveEntries w)
        ∧ (Version cv ∉ versionsAt (liveEntries (deleteChartVersionRequestHandler c w).2)
                                   (Name cv))
        ∧ StorageCache (server (deleteChartVersionRequestHandler c w).2)
          = (take idx (StorageCache (server w)) ++ drop (S idx) (StorageCache (server w)))%list)
     ∧ (list_find (λ o, Path o = packageFile c) (StorageCache (server w)) = None →
        status (deleteChartVersionRequestHandler c w).1 = 500
        ∧ server (deleteChartVersionRequestHandler c w).2 = server w
        ∧ indexFiles (deleteChartVersionRequestHandler c w).2 = indexFiles w))
  ∧ (deleteChartVersionRequestHandler c (deleteChartVersionRequestHandler c w).2).1
    = JSON 404 notFoundErrorResponse.
Proof.
  intros Hdel.
  pose proof (deleteChartVersionRequestHandler_backend c w Hdel) as Hback.
  split; [exact Hback|].
  split; [|split].
  - intros Hp. apply Z.ltb_ge in Hp.
    unfold deleteChartVersionRequestHandler, lockIfPeriodic, bind,
      backendDeleteObject, getServer.
    fold (packageFile c). rewrite Hp. simpl. rewrite Hdel. simpl. rewrite Hp.
    repeat split; reflexivity.
  - intros Hp. apply Z.ltb_lt in Hp.
    unfold deleteChartVersionRequestHandler, lockIfPeriodic, withStorageCacheLock,
      bind, backendDeleteObject, getServer.
    fold (packageFile c). rewrite Hp. cbn -[removeChartPackage].
    rewrite Hdel. cbn -[removeChartPackage]. rewrite Hp.
    match goal with
    | |- context [removeChartPackage ?f ?w0] => set (w1 := w0)
    end.
    split.
    + intros idx obj cv Hfind Hcv.
      destruct (removeChartPackage_cached (packageFile c) w1 idx obj cv Hfind Hcv)
        as (Hnone & Hentries & Hcache).
      destruct (removeChartPackage (packageFile c) w1) as [err w2].
      simpl in Hnone. subst err. cbn.
      assert (Hlive : liveEntries (setLogged
                (logged w2 ++ [{| level := DebugLevel;
                                  message := "Releasing storage cache lock";
                                  fields := [] |}]) w2)
              = IndexModel.removeEntry cv (liveEntries w)).
      { exact Hentries. }
      split; [reflexivity|]. split; [exact Hlive|].
      split; [rewrite Hlive; apply removeEntry_drops_version | exact Hcache].
    + intros Hfind.
      rewrite (removeChartPackage_not_cached (packageFile c) w1 Hfind).
      repeat split; reflexivity.
  - apply (deleteChartVersionRequestHandler_not_found c _ NotFound).
    rewrite Hback. unfold afterDeletes.
    apply DeleteObject_absent, DeleteObject_keeps_absent, DeleteObject_removes, Hdel.
Qed.

(** C9, as amended.  In "get object" every error of [GetObject], and in
    "delete version" every error of [DeleteObject] on the package file,
    [NotFound] or any other, ends the request with 404; the delete leaves
    index and cache alone. *)
Theorem backend_errors_surface_as_not_found (c : Request) (w : World B) :
  (∀ e, HasSuffix (Param c "filename") ChartPackageFileExtension
        || HasSuffix (Param c "filename") ProvenanceFileExtension = true →
        GetObject (backend w) (Param c "filename") = Err e →
        getStorageObjectRequestHandler c w = (JSON 404 notFoundErrorResponse, w))
  ∧ (∀ e, (DeleteObject (backend w) (packageFile c)).1 = Some e →
          (deleteChartVersionRequestHandler c w).1 = JSON 404 notFoundErrorResponse
          ∧ server (deleteChartVersionRequestHandler c w).2 = server w
          ∧ indexFiles (deleteChartVersionRequestHandler c w).2 = indexFiles w).
Proof.
  split.
  - intros e Hext Hget. unfold getStorageObjectRequestHandler, bind, backendGetObject.
    destruct (HasSuffix _ ChartPackageFileExtension), (HasSuffix _ ProvenanceFileExtension);
      try discriminate; simpl; rewrite Hget; reflexivity.
  - intros e Hdel.
    destruct (deleteChartVersionRequestHandler_not_found c w e Hdel)
      as (Hresp & _ & Hserver & Hindex).
    repeat split; assumption.
Qed.

(** C10.  When an object is fetched again during a reconcile and
    [GetObject] succeeds with content of length zero, the object is an
    invalid chart package: [getObjectChartVersion] reports
    [ErrorInvalidChartPackage]; the update loop logs the warning, leaves the
    index alone and goes on with the next object; the goroutine of the
    loader logs the warning, leaves its slot empty and reports no error. *)
Theorem empty_content_is_invalid_artifact (w : World B) (object fetched : Object) :
  GetObject (backend w) (Path object) = Ok fetched →
  Content fetched = [] →
  getObjectChartVersion object true w = (Err ErrorInvalidChartPackage, w)
  ∧ (∀ index rest,
       forEachObject updateIndexObject index (object :: rest) w
       = forEachObject updateIndexObject index rest (warnInvalid "updated" object w))
  ∧ (∀ i err loaded,
       loadGoroutine i object err loaded w
       = ((err, loaded), match err with
                         | None => warnInvalid "added" object w
                         | Some _ => w
                         end)).
Proof.
  intros Hget Hempty.
  assert (Hv : getObjectChartVersion object true w = (Err ErrorInvalidChartPackage, w)).
  { unfold getObjectChartVersion, bind, backendGetObject. rewrite Hget, Hempty. reflexivity. }
  split; [exact Hv|]. split.
  - intros index rest. simpl. unfold bind at 1. unfold updateIndexObject, bind at 1.
    rewrite Hv. reflexivity.
  - intros i [e|] loaded; [reflexivity|].
    unfold loadGoroutine, bind. rewrite Hv. reflexivity.
Qed.
End HandlerProperties.

(** ** The in-memory backend honours the contract *)

Section MemBackendContract.
Import Doubles.

Lemma list_find_filter_None {A} (P Q : A → Prop) `{!∀ x, Decision (P x)}
    `{!∀ x, Decision (Q x)} (l : list A) :
  list_find P l = None → list_find P (filter Q l) = None.
Proof.
  rewrite !list_find_None, !Forall_forall.
  intros Hl x [_ Hx]%list_elem_of_filter. exact (Hl x Hx).
Qed.

Lemma list_find_filter_out (path : string) (l : list Object) :
  list_find (λ o, Path o = path) (filter (λ x, Path x ≠ path) l) = None.
Proof.
  rewrite list_find_None, Forall_forall.
  intros x [Hne _]%list_elem_of_filter. exact Hne.
Qed.

Lemma memGet_NotFound (b : MemBackend) (path : string) :
  memGet b path = Err NotFound ↔ memFind b path = None.
Proof.
  unfold memGet. destruct (memFind b path) as [o|]; [|split; reflexivity].
  destruct (bool_decide _); split; discriminate.
Qed.

Lemma memBackend_contract : BackendContract MemBackend.
Proof.
  split; simpl.
  - intros b path. unfold memDelete.
    destruct (memFind b path) as [o|] eqn:Hfind; [|discriminate].
    destruct (bool_decide _); [discriminate|]. intros _. simpl.
    apply memGet_NotFound. unfold memFind. simpl.
    rewrite list_find_filter_out. reflexivity.
  - intros b path other Habsent. apply memGet_NotFound in Habsent.
    apply memGet_NotFound. unfold memDelete.
    destruct (memFind b other); [|exact Habsent].
    destruct (bool_decide _); [exact Habsent|]. simpl.
    unfold memFind in *. simpl.
    destruct (list_find _ (objs b)) eqn:Hfind; [discriminate|].
    rewrite (list_find_filter_None _ _ _ Hfind). reflexivity.
  - intros b path Habsent. apply memGet_NotFound in Habsent.
    unfold memDelete. rewrite Habsent. reflexivity.
Qed.
End MemBackendContract.

(** ** The read paths *)

Section ReadPaths.
Context {B : Type} `{!Backend B} `{!Decoder} `{!IndexAdapters} `{!Scheduler}.

#[export] Instance sameBackend_preorder : PreOrder (sameBackend (B:=B)).
Proof.
  split.
  - intros w. reflexivity.
  - intros a b c Hab Hbc. unfold sameBackend in *. congruence.
Qed.

Lemma respects_regenerateRepositoryIndex :
  respects sameBackend regenerateRepositoryIndex.
Proof. intros w. apply regenerateRepositoryIndex_outcome. Qed.

Lemma respects_syncRepositoryIndex : respects sameBackend syncRepositoryIndex.
Proof.
  unfold syncRepositoryIndex.
  apply respects_bind; [apply _ | apply respects_listObjectsGetDiff, _ |].
  intros [[objects diff]|err]; [|apply respects_ret, _].
  destruct (negb _); [apply respects_ret, _ | apply respects_regenerateRepositoryIndex].
Qed.

Lemma respects_syncOnRead (serve : M B Response) :
  respects sameBackend serve → respects sameBackend (syncOnRead serve).
Proof.
  intros Hserve. unfold syncOnRead.
  apply respects_bind; [apply _ | apply respects_getServer, _ |]. intros s.
  destruct (_ =? _); [|exact Hserve].
  apply respects_bind; [apply _ | apply respects_syncRepositoryIndex |].
  intros [err|]; [apply respects_ret, _ | exact Hserve].
Qed.

(** X1.  No read path writes to the blob store: the four index reads, the
    object download, a reconcile started on a read and the reconcile of
    the ticker leave the store as they found it, in every mode and whatever
    they answer. *)
Theorem reads_never_write_storage (c : Request) (w : World B) :
  backend (getIndexFileRequestHandler c w).2 = backend w
  ∧ backend (getAllChartsRequestHandler c w).2 = backend w
  ∧ backend (getChartRequestHandler c w).2 = backend w
  ∧ backend (getChartVersionRequestHandler c w).2 = backend w
  ∧ backend (getStorageObjectRequestHandler c w).2 = backend w
  ∧ backend (syncRepositoryIndex w).2 = backend w
  ∧ backend (Update w).2 = backend w.
Proof.
  split_and!.
  - apply (respects_syncOnRead _). intros w0. reflexivity.
  - apply (respects_syncOnRead _). intros w0. reflexivity.
  - apply (respects_syncOnRead _). intros w0. unfold bind, getWorld.
    destruct (_ !! _); reflexivity.
  - apply (respects_syncOnRead _). intros w0. unfold bind, getServer, Get.
    destruct (IndexModel.get _ _ _); reflexivity.
  - unfold getStorageObjectRequestHandler, bind, backendGetObject.
    destruct (_ && _); [reflexivity|].
    destruct (GetObject _ _); [|reflexivity].
    destruct (HasSuffix _ ProvenanceFileExtension); reflexivity.
  - apply respects_syncRepositoryIndex.
  - unfold Update, bind.
    pose proof (respects_regenerateRepositoryIndex w) as Hb.
    destruct (regenerateRepositoryIndex w). exact Hb.
Qed.

Lemma syncRepositoryIndex_list_error (w : World B) (e : error) :
  ListObjects (backend w) = Err e → syncRepositoryIndex w = (Some e, w).
Proof.
  intros Hlist. unfold syncRepositoryIndex, bind.
  rewrite listObjectsGetDiff_eq, Hlist. reflexivity.
Qed.

(** X2.  In refresh-on-read mode a listing that fails ends every index read
    with 500 and the listing's error; nothing is served from the index and
    the world is left as it was. *)
Theorem listing_failure_answers_500 (c : Request) (w : World B) (e : error) :
  CacheRefreshPeriod (server w) = 0 →
  ListObjects (backend w) = Err e →
  getIndexFileRequestHandler c w = (JSON 500 (errorResponse e), w)
  ∧ getAllChartsRequestHandler c w = (JSON 500 (errorResponse e), w)
  ∧ getChartRequestHandler c w = (JSON 500 (errorResponse e), w)
  ∧ getChartVersionRequestHandler c w = (JSON 500 (errorResponse e), w).
Proof.
  intros Hperiod Hlist.
  assert (Hsync : ∀ serve, syncOnRead serve w = (JSON 500 (errorResponse e), w)).
  { intros serve. unfold syncOnRead, bind, getServer. rewrite Hperiod. simpl.
    rewrite (syncRepositoryIndex_list_error w e Hlist). reflexivity. }
  split_and!; apply Hsync.
Qed.

(** X3.  With a refresh period other than zero, negative ones included, the
    index reads do not reconcile: they answer from the index in memory and
    leave the world untouched.  The index file is [Raw] as it stands, and a
    chart is answered with 404 exactly when the entries have no such
    name. *)
Theorem reads_do_not_refresh (c : Request) (w : World B) :
  CacheRefreshPeriod (server w) ≠ 0 →
  getIndexFileRequestHandler c w
    = ({| status := 200;
          body := Data IndexFileContentType (Raw (RepositoryIndex (server w))) |}, w)
  ∧ getAllChartsRequestHandler c w = (JSON 200 (EntriesJSON (liveEntries w)), w)
  ∧ getChartRequestHandler c w
    = (match liveEntries w !! Param c "name" with
       | Some chart => JSON 200 (ChartJSON chart)
       | None => JSON 404 notFoundErrorResponse
       end, w)
  ∧ (getChartVersionRequestHandler c w).2 = w.
Proof.
  intros Hperiod. apply Z.eqb_neq in Hperiod.
  unfold getIndexFileRequestHandler, getAllChartsRequestHandler,
    getChartRequestHandler, getChartVersionRequestHandler, syncOnRead, bind,
    getServer, getWorld, Get, liveEntries.
  rewrite Hperiod. split_and!; try reflexivity.
  - destruct (_ !! _); reflexivity.
  - destruct (IndexModel.get _ _ _); reflexivity.
Qed.

(** X4.  The object download leaves the world untouched.  A filename that
    ends in neither extension is refused with 500 whatever the store holds.
    An answer of 200 carries the content of the object stored under that
    name, and is given only for a name with one of the two extensions; a
    stored object is typed as provenance exactly when the name ends in the
    provenance extension. *)
Theorem get_object_outcomes (c : Request) (w : World B) :
  (getStorageObjectRequestHandler c w).2 = w
  ∧ (HasSuffix (Param c "filename") ChartPackageFileExtension = false →
     HasSuffix (Param c "filename") ProvenanceFileExtension = false →
     (getStorageObjectRequestHandler c w).1 = JSON 500 badExtensionErrorResponse)
  ∧ (status (getStorageObjectRequestHandler c w).1 = 200 →
     ∃ object contentType,
       GetObject (backend w) (Param c "filename") = Ok object
       ∧ body (getStorageObjectRequestHandler c w).1
         = Data contentType (Content object)
       ∧ (HasSuffix (Param c "filename") ChartPackageFileExtension = true
          ∨ HasSuffix (Param c "filename") ProvenanceFileExtension = true))
  ∧ (∀ object,
       GetObject (backend w) (Param c "filename") = Ok object →
       (HasSuffix (Param c "filename") ProvenanceFileExtension = true →
        (getStorageObjectRequestHandler c w).1
        = {| status := 200; body := Data ProvenanceFileContentType (Content object) |})
       ∧ (HasSuffix (Param c "filename") ProvenanceFileExtension = false →
          HasSuffix (Param c "filename") ChartPackageFileExtension = true →
          (getStorageObjectRequestHandler c w).1
          = {| status := 200; body := Data ChartPackageContentType (Content object) |})).
Proof.
  unfold getStorageObjectRequestHandler, bind, backendGetObject.
  split_and!.
  - destruct (_ && _); [reflexivity|].
    destruct (GetObject _ _); [|reflexivity].
    destruct (HasSuffix _ ProvenanceFileExtension); reflexivity.
  - intros -> ->. reflexivity.
  - destruct (HasSuffix _ ChartPackageFileExtension) eqn:Hpkg,
             (HasSuffix _ ProvenanceFileExtension) eqn:Hprov; simpl;
      try discriminate;
      (destruct (GetObject _ _) as [object|e]; simpl; [|discriminate]);
      intros _; eexists object, _; (split; [reflexivity|]);
      (split; [reflexivity|]); auto.
  - intros object Hget. split.
    + intros Hprov. rewrite Hprov, andb_false_r. simpl. rewrite Hget. reflexivity.
    + intros Hprov Hpkg. rewrite Hprov, Hpkg. simpl. rewrite Hget. reflexivity.
Qed.
End ReadPaths.

(** ** The upload paths *)

Section UploadPaths.
Context {B : Type} `{!Backend B} `{!Decoder} `{!IndexAdapters} `{!Scheduler}.

Lemma extractAndValidateFormFile_unchanged (req : Request) (field : string)
    (fn : bytes → result string) (w : World B) :
  (extractAndValidateFormFile req field fn w).2 = w.
Proof.
  unfold extractAndValidateFormFile, bind, getServer, backendGetObject.
  destruct (FormFile req field) as [[content|err]|]; [|reflexivity..].
  destruct (fn content) as [name|err]; [|reflexivity].
  destruct (negb _); [|reflexivity].
  destruct (GetObject _ _); reflexivity.
Qed.

Lemma extractFormFiles_unchanged (req : Request)
    (ffp : list (string * (bytes → result string))) :
  ∀ ppFiles (w : World B), (extractFormFiles req ffp ppFiles w).2 = w.
Proof.
  induction ffp as [|ff rest IH]; intros ppFiles w; simpl; [reflexivity|].
  unfold bind at 1.
  pose proof (extractAndValidateFormFile_unchanged req ff.1 ff.2 w) as Hw.
  destruct (extractAndValidateFormFile req ff.1 ff.2 w) as [[[ppf st] err] w1].
  simpl in Hw. subst w1.
  destruct ppf as [ppf|], err as [err|]; first [reflexivity | apply IH].
Qed.

(** X5.  The answers a multipart upload gives before it stores anything.
    A request with neither form field is 400, with a message that names
    the two fields.  A package field whose body cannot be read is 500 with
    that error, and one the decoder refuses is 400 with the decoder's
    error; as is a provenance field the decoder refuses when there is no
    package field. *)
Theorem multipart_early_answers (c : Request) (w : World B) :
  (FormFile c (ChartPostFormFieldName (server w)) = None →
   FormFile c (ProvPostFormFieldName (server w)) = None →
   (postPackageAndProvenanceRequestHandler c w).1
   = JSON 400 (errorResponse (Errorf (
       "no package or provenance file found in form fields "
       +:+ ChartPostFormFieldName (server w) +:+ " and "
       +:+ ProvPostFormFieldName (server w)))))
  ∧ (∀ err,
       FormFile c (ChartPostFormFieldName (server w)) = Some (Err err) →
       (postPackageAndProvenanceRequestHandler c w).1 = JSON 500 (errorResponse err))
  ∧ (∀ content err,
       FormFile c (ChartPostFormFieldName (server w)) = Some (Ok content) →
       ChartPackageFilenameFromContent content = Err err →
       (postPackageAndProvenanceRequestHandler c w).1 = JSON 400 (errorResponse err))
  ∧ (∀ content err,
       FormFile c (ChartPostFormFieldName (server w)) = None →
       FormFile c (ProvPostFormFieldName (server w)) = Some (Ok content) →
       ProvenanceFilenameFromContent content = Err err →
       (postPackageAndProvenanceRequestHandler c w).1 = JSON 400 (errorResponse err)).
Proof.
  unfold postPackageAndProvenanceRequestHandler, lockIfPeriodic,
    withStorageCacheLock, extractFormFiles, extractAndValidateFormFile, bind,
    getServer, Debugw, ret.
  split_and!.
  - intros Hchart Hprov. destruct (0 <? _); cbn; rewrite Hchart; cbn;
      rewrite Hprov; reflexivity.
  - intros err Hchart. destruct (0 <? _); cbn; rewrite Hchart; reflexivity.
  - intros content err Hchart Hname. destruct (0 <? _); cbn; rewrite Hchart; cbn;
      rewrite Hname; reflexivity.
  - intros content err Hchart Hprov Hname. destruct (0 <? _); cbn; rewrite Hchart;
      cbn; rewrite Hprov; cbn; rewrite Hname; reflexivity.
Qed.

(** X6.  A multipart upload validates every form field before it stores
    anything: when it answers 400 or 409, the blob store, the cache and the
    index are as they were. *)
Theorem multipart_rejection_writes_nothing (c : Request) (w : World B) :
  status (postPackageAndProvenanceRequestHandler c w).1 = 400
  ∨ status (postPackageAndProvenanceRequestHandler c w).1 = 409 →
  backend (postPackageAndProvenanceRequestHandler c w).2 = backend w
  ∧ server (postPackageAndProvenanceRequestHandler c w).2 = server w
  ∧ indexFiles (postPackageAndProvenanceRequestHandler c w).2 = indexFiles w.
Proof.
  assert (Hstore : ∀ l (w0 : World B),
            ¬ (status (storeFiles l [] w0).1 = 400
               ∨ status (storeFiles l [] w0).1 = 409)).
  { intros l w0 [Hr|Hr]; destruct (storeFiles_status l [] w0) as [Hs|Hs];
      rewrite Hr in Hs; discriminate. }
  unfold postPackageAndProvenanceRequestHandler, lockIfPeriodic,
    withStorageCacheLock, bind, getServer.
  destruct (0 <? _); cbn -[extractFormFiles storeFiles];
    match goal with
    | |- context [extractFormFiles c ?ffp [] ?w0] =>
        pose proof (extractFormFiles_unchanged c ffp [] w0) as Hw;
        destruct (extractFormFiles c ffp [] w0) as [[response|files] w1]
    end; simpl in Hw; subst w1; cbn -[storeFiles];
    try (intros _; split_and!; reflexivity);
    match goal with
    | |- context [(length ?l =? 0)%nat] => destruct (length l =? 0)%nat
    end; cbn -[storeFiles];
    try (intros _; split_and!; reflexivity);
    match goal with
    | |- context [storeFiles ?l [] ?w0] =>
        pose proof (Hstore l w0) as Hs;
        destruct (storeFiles l [] w0) as [r w2]
    end; cbn in *; intros Hr; contradiction.
Qed.

Lemma storeFiles_refresh_backend (ppf : packageOrProvenanceFile) (s : Server)
    (w : World B) :
  backend
    ((if (0 <? CacheRefreshPeriod s)
         && HasSuffix (filename ppf) ChartPackageFileExtension
      then
        let! r := backendGetObject (filename ppf) in
        match r with
        | Ok obj => let! _ := addChartPackage obj in ret tt
        | Err _ => ret tt
        end
      else ret tt) w).2 = backend w.
Proof.
  destruct (_ && _); [|reflexivity].
  unfold bind, backendGetObject.
  destruct (GetObject _ _) as [obj|e]; [|reflexivity].
  pose proof (addChartPackage_backend obj w) as Hb.
  destruct (addChartPackage obj w). exact Hb.
Qed.

(** X7.  The answer of the store loop of a multipart upload is decided by
    [PutObject] alone: 201 when every file is stored, 500 with the error of
    the first [PutObject] that fails.  What fetching the stored package
    back or adding it to cache and index reports does not reach the
    answer. *)
Theorem multipart_answer_follows_PutObject
    (ppFiles storedFiles : list packageOrProvenanceFile) (w : World B) :
  (storeFiles ppFiles storedFiles w).1
  = match putAll ppFiles (backend w) with
    | None => JSON 201 objectSavedResponse
    | Some err => JSON 500 (errorResponse err)
    end.
Proof.
  revert storedFiles w.
  induction ppFiles as [|ppf rest IH]; intros storedFiles w; [reflexivity|].
  cbn [storeFiles putAll]. unfold bind at 1. cbn [Debugw fst snd].
  unfold bind at 1, backendPutObject at 1. cbn [backend setLogged].
  destruct (PutObject (backend w) (filename ppf) (content ppf)) as [[err|] b'];
    cbn [fst snd].
  - unfold bind. destruct (deleteStoredFiles storedFiles _). reflexivity.
  - unfold bind at 1, getServer at 1. unfold bind at 1.
    match goal with
    | |- context [(if ?cnd then ?a else ?b) ?w0] =>
        pose proof (storeFiles_refresh_backend ppf (server w0) w0) as Hb;
        destruct ((if cnd then a else b) w0) as [u w1]
    end.
    cbn [snd] in Hb. rewrite IH, Hb. reflexivity.
Qed.
End UploadPaths.

(** ** Uploads once the file is stored *)

Section StoredUploads.
Context {B : Type} `{!Backend B} `{!Decoder} `{!IndexAdapters} `{!Scheduler}.

Lemma addChartPackage_result (object : Object) (w : World B) :
  (addChartPackage object w).1
  = match ChartVersionFromStorageObject object with
    | Ok _ | Err ErrorInvalidChartPackage => None
    | Err e => Some e
    end
  ∧ StorageCache (server (addChartPackage object w).2)
    = (StorageCache (server w) ++ [object])%list.
Proof.
  unfold addChartPackage, bind, getServer, putServer, getObjectChartVersion,
    checkInvalidChartPackageError, ret.
  simpl. destruct (ChartVersionFromStorageObject object) as [cv|[]]; split; reflexivity.
Qed.

(** X8.  Once [PutObject] has succeeded, a raw upload does not take the
    file back: the store is the one [PutObject] left, whatever the answer.
    With a period of zero or less the answer is 201 and cache and index are
    untouched.  In periodic mode, when the package cannot be fetched back
    the answer is 500 with that error and cache and index are untouched;
    when it is fetched back it is appended to the cache, and the answer is
    201 unless decoding it fails with an error other than
    [ErrorInvalidChartPackage], which is answered with 500. *)
Theorem raw_upload_after_store (c : Request) (w : World B) (content : bytes)
    (name : string) (b' : B) :
  RawData c = Ok content →
  ChartPackageFilenameFromContent content = Ok name →
  AllowOverwrite (server w) = true ∨ is_Ok (GetObject (backend w) name) = false →
  PutObject (backend w) name content = (None, b') →
  backend (postPackageRequestHandler c w).2 = b'
  ∧ (CacheRefreshPeriod (server w) ≤ 0 →
     (postPackageRequestHandler c w).1 = JSON 201 objectSavedResponse
     ∧ server (postPackageRequestHandler c w).2 = server w
     ∧ indexFiles (postPackageRequestHandler c w).2 = indexFiles w)
  ∧ (0 < CacheRefreshPeriod (server w) →
     (∀ e, GetObject b' name = Err e →
        (postPackageRequestHandler c w).1 = JSON 500 (errorResponse e)
        ∧ server (postPackageRequestHandler c w).2 = server w
        ∧ indexFiles (postPackageRequestHandler c w).2 = indexFiles w)
     ∧ (∀ obj, GetObject b' name = Ok obj →
          StorageCache (server (postPackageRequestHandler c w).2)
          = (StorageCache (server w) ++ [obj])%list
          ∧ (postPackageRequestHandler c w).1
            = match ChartVersionFromStorageObject obj with
              | Ok _ | Err ErrorInvalidChartPackage => JSON 201 objectSavedResponse
              | Err e => JSON 500 (errorResponse e)
              end)).
Proof.
  intros Hraw Hname Hfree Hput.
  unfold postPackageRequestHandler, lockIfPeriodic, withStorageCacheLock, bind,
    getServer, backendGetObject, backendPutObject.
  rewrite Hraw, Hname.
  destruct (Z.ltb_spec 0 (CacheRefreshPeriod (server w))) as [Hlt|Hle].
  - cbn -[addChartPackage].
    destruct (AllowOverwrite (server w)) eqn:Hallow; cbn -[addChartPackage];
      try (destruct (GetObject (backend w) name) as [o0|e0];
           [destruct Hfree as [[=]|[=]]|]; cbn -[addChartPackage]).
    all: rewrite Hput; cbn -[addChartPackage].
    all: destruct (Z.ltb_spec 0 (CacheRefreshPeriod (server w))) as [_|Hle]; [|lia].
    all: cbn -[addChartPackage].
    all: destruct (GetObject b' name) as [obj|e] eqn:Hget; cbn -[addChartPackage].
    all: try (split; [reflexivity|]; split; [intros Hle; lia|]; intros _;
              split; [|intros obj [=]]; intros e' [= <-]; split_and!; reflexivity).
    all: match goal with
         | |- context [addChartPackage ?o ?w0] =>
             pose proof (addChartPackage_backend o w0) as Hb;
             destruct (addChartPackage_result o w0) as [Hres Hcache];
             destruct (addChartPackage o w0) as [err w3]
         end.
    all: cbn in Hb, Hres, Hcache; subst err.
    all: split; [destruct (ChartVersionFromStorageObject obj) as [cv|[]]; exact Hb|].
    all: split; [intros Hle; lia|]; intros _; split; [intros e [=]|].
    all: intros obj' [= <-].
    all: split; [destruct (ChartVersionFromStorageObject obj) as [cv|[]]; exact Hcache|].
    all: destruct (ChartVersionFromStorageObject obj) as [cv|[]]; reflexivity.
  - cbn.
    destruct (AllowOverwrite (server w)) eqn:Hallow; cbn;
      try (destruct (GetObject (backend w) name) as [o0|e0];
           [destruct Hfree as [[=]|[=]]|]; cbn).
    all: rewrite Hput; cbn.
    all: destruct (Z.ltb_spec 0 (CacheRefreshPeriod (server w))) as [Hlt|_]; [lia|].
    all: cbn; split; [reflexivity|]; split; [intros _; split_and!; reflexivity|].
    all: intros Hlt; lia.
Qed.

(** X9.  The provenance upload stores a file and nothing else: in every
    mode cache and index are as they were, and the answer is 201 or 500.
    With [AllowOverwrite] off, a filename [GetObject] finds is refused with
    500 "file already exists" and the store is untouched; otherwise the
    store is the one [PutObject] leaves, and the answer is 201 exactly when
    [PutObject] succeeds. *)
Theorem provenance_upload_outcomes (c : Request) (w : World B) :
  server (postProvenanceFileRequestHandler c w).2 = server w
  ∧ indexFiles (postProvenanceFileRequestHandler c w).2 = indexFiles w
  ∧ (status (postProvenanceFileRequestHandler c w).1 = 201
     ∨ status (postProvenanceFileRequestHandler c w).1 = 500)
  ∧ (∀ content name,
       RawData c = Ok content →
       ProvenanceFilenameFromContent content = Ok name →
       (AllowOverwrite (server w) = false →
        is_Ok (GetObject (backend w) name) = true →
        postProvenanceFileRequestHandler c w = (JSON 500 alreadyExistsErrorResponse, w))
       ∧ (AllowOverwrite (server w) = true
          ∨ is_Ok (GetObject (backend w) name) = false →
          backend (postProvenanceFileRequestHandler c w).2
          = (PutObject (backend w) name content).2
          ∧ (postProvenanceFileRequestHandler c w).1
            = match (PutObject (backend w) name content).1 with
              | None => JSON 201 objectSavedResponse
              | Some e => JSON 500 (errorResponse e)
              end)).
Proof.
  unfold postProvenanceFileRequestHandler, bind, getServer, backendGetObject,
    backendPutObject.
  split_and!.
  1-3: destruct (RawData c) as [content|e]; [|first [reflexivity | right; reflexivity]].
  1-3: destruct (ProvenanceFilenameFromContent content) as [name|e1];
         [|first [reflexivity | right; reflexivity]].
  1-3: destruct (AllowOverwrite (server w)); cbn;
         try (destruct (GetObject (backend w) name); cbn;
              [first [reflexivity | right; reflexivity]|]).
  1-6: destruct (PutObject (backend w) name content) as [[e2|] b']; cbn;
         first [reflexivity | left; reflexivity | right; reflexivity].
  intros content name Hraw Hname. rewrite Hraw, Hname. split.
  - intros Hallow Hfound. rewrite Hallow. cbn.
    destruct (GetObject (backend w) name); [reflexivity | discriminate].
  - intros Hfree.
    destruct (AllowOverwrite (server w)); cbn;
      try (destruct (GetObject (backend w) name);
           [destruct Hfree as [[=]|[=]]|]; cbn).
    all: destruct (PutObject (backend w) name content) as [[e3|] b']; cbn.
    all: split; reflexivity.
Qed.
End StoredUploads.

(** ** The cache under the incremental paths and the reconcile *)

Section CacheProperties.
Context {B : Type} `{!Backend B} `{!Decoder} `{!IndexAdapters} `{!Scheduler}.

Lemma list_find_snoc_new (path : string) (cache : list Object) (object : Object) :
  list_find (λ o, Path o = path) cache = None →
  Path object = path →
  list_find (λ o, Path o = path) (cache ++ [object]) = Some (length cache, object).
Proof.
  intros Hnone Hpath. apply list_find_Some. split_and!.
  - rewrite lookup_app_r by lia. rewrite Nat.sub_diag. reflexivity.
  - exact Hpath.
  - intros j o Hj Hlt. rewrite lookup_app_l in Hj by exact Hlt.
    apply list_find_None in Hnone. rewrite Forall_forall in Hnone.
    apply Hnone. eapply list_elem_of_lookup_2, Hj.
Qed.

Lemma removeChartPackage_cases (path : string) (w : World B) :
  match list_find (λ o, Path o = path) (StorageCache (server w)) with
  | None =>
      removeChartPackage path w
      = (Some (Errorf ("chart with filename '" +:+ path +:+ "' not found")), w)
  | Some (idx, obj) =>
      match ChartVersionFromStorageObject obj with
      | Ok _ | Err ErrorInvalidChartPackage =>
          (removeChartPackage path w).1 = None
          ∧ StorageCache (server (removeChartPackage path w).2)
            = (take idx (StorageCache (server w))
               ++ drop (S idx) (StorageCache (server w)))%list
      | Err e =>
          (removeChartPackage path w).1 = Some e
          ∧ StorageCache (server (removeChartPackage path w).2)
            = StorageCache (server w)
      end
  end.
Proof.
  unfold removeChartPackage, bind, getServer, putServer, removeIndexObject,
    getObjectChartVersion, checkInvalidChartPackageError, ret.
  destruct (list_find _ _) as [[idx obj]|]; [|reflexivity].
  simpl. destruct (ChartVersionFromStorageObject obj) as [cv|[]]; split; reflexivity.
Qed.

(** X10.  Adding an object whose path is not in the cache and removing that
    path again gives the cache back: when [addChartPackage] returns no
    error, [removeChartPackage] on the object's path returns no error
    either and the cache is the one before the add. *)
Theorem add_then_remove_restores_cache (object : Object) (w : World B) :
  list_find (λ o, Path o = Path object) (StorageCache (server w)) = None →
  (addChartPackage object w).1 = None →
  (removeChartPackage (Path object) (addChartPackage object w).2).1 = None
  ∧ StorageCache
      (server (removeChartPackage (Path object) (addChartPackage object w).2).2)
    = StorageCache (server w).
Proof.
  intros Hnew Hadd.
  destruct (addChartPackage_result object w) as [Hres Hcache].
  rewrite Hadd in Hres.
  pose proof (removeChartPackage_cases (Path object) (addChartPackage object w).2)
    as Hremove.
  rewrite Hcache in Hremove.
  rewrite (list_find_snoc_new _ _ object Hnew eq_refl) in Hremove.
  assert (Hcut : (take (length (StorageCache (server w)))
                       (StorageCache (server w) ++ [object])
                  ++ drop (S (length (StorageCache (server w))))
                       (StorageCache (server w) ++ [object]))%list
                 = StorageCache (server w)).
  { rewrite take_app_length.
    rewrite drop_app_ge by lia.
    replace (S (length (StorageCache (server w))) - length (StorageCache (server w)))%nat
      with 1%nat by lia.
    simpl. apply app_nil_r. }
  destruct (ChartVersionFromStorageObject object) as [cv|[]];
    try discriminate; destruct Hremove as [Hnone Hafter];
    (split; [exact Hnone | rewrite Hafter; exact Hcut]).
Qed.


(** X12.  A reconcile that succeeds installs as cache the listing it read,
    reduced to the objects with the package extension: every cached object
    has that extension.  The settings of the server are the ones before. *)
Theorem successful_reconcile_installs_listing (w : World B) :
  (regenerateRepositoryIndex w).1 = None →
  ∃ all,
    ListObjects (backend w) = Ok all
    ∧ StorageCache (server (regenerateRepositoryIndex w).2) = filteredObjects all
    ∧ Forall (λ o, HasExtension o ChartPackageFileExtension = true)
             (StorageCache (server (regenerateRepositoryIndex w).2))
    ∧ AllowOverwrite (server (regenerateRepositoryIndex w).2) = AllowOverwrite (server w)
    ∧ CacheRefreshPeriod (server (regenerateRepositoryIndex w).2)
      = CacheRefreshPeriod (server w)
    ∧ ChartPostFormFieldName (server (regenerateRepositoryIndex w).2)
      = ChartPostFormFieldName (server w)
    ∧ ProvPostFormFieldName (server (regenerateRepositoryIndex w).2)
      = ProvPostFormFieldName (server w).
Proof.
  intros Hok. pose proof (regenerateRepositoryIndex_outcome w) as [_ Hs].
  rewrite Hok in Hs. destruct Hs as (all & index & Hall & Hs).
  exists all. rewrite Hs. split_and!; try reflexivity; try exact Hall.
  simpl. unfold filteredObjects. apply Forall_forall.
  intros o [Hext _]%list_elem_of_filter. apply Is_true_true, Hext.
Qed.
End CacheProperties.

(** ** A reconcile that fails *)

Section FailedReconcile.
Context {B : Type} `{!Backend B} `{!Decoder} `{!IndexAdapters} `{!Scheduler}.

Lemma listObjectsGetDiff_reads (w w' : World B) :
  backend w' = backend w → server w' = server w →
  (listObjectsGetDiff w').1 = (listObjectsGetDiff w).1.
Proof. intros Hb Hs. rewrite !listObjectsGetDiff_eq, Hb, Hs. reflexivity. Qed.

(** X13.  A reconcile that returns an error, from the ticker or on a read,
    installs nothing: the blob store and the server record (index pointer,
    [Raw], cache, settings) are the ones before, so the next
    [listObjectsGetDiff] reports the same listing and the same diff and
    the work that failed is attempted again. *)
Theorem failed_reconcile_keeps_pending_diff (w : World B) (e : error) :
  ((regenerateRepositoryIndex w).1 = Some e →
   backend (regenerateRepositoryIndex w).2 = backend w
   ∧ server (regenerateRepositoryIndex w).2 = server w
   ∧ (listObjectsGetDiff (regenerateRepositoryIndex w).2).1 = (listObjectsGetDiff w).1)
  ∧ ((syncRepositoryIndex w).1 = Some e →
     backend (syncRepositoryIndex w).2 = backend w
     ∧ server (syncRepositoryIndex w).2 = server w
     ∧ (listObjectsGetDiff (syncRepositoryIndex w).2).1 = (listObjectsGetDiff w).1).
Proof.
  assert (Hregenerate : (regenerateRepositoryIndex w).1 = Some e →
            backend (regenerateRepositoryIndex w).2 = backend w
            ∧ server (regenerateRepositoryIndex w).2 = server w
            ∧ (listObjectsGetDiff (regenerateRepositoryIndex w).2).1
              = (listObjectsGetDiff w).1).
  { intros Herr. pose proof (regenerateRepositoryIndex_outcome w) as [Hb Hs].
    rewrite Herr in Hs. split_and!; [exact Hb | exact Hs |].
    apply listObjectsGetDiff_reads; assumption. }
  split; [exact Hregenerate|].
  unfold syncRepositoryIndex, bind. rewrite listObjectsGetDiff_eq.
  destruct (ListObjects (backend w)) as [all|e'] eqn:Hall; cbn [fst snd].
  - destruct (negb _); cbn [fst snd]; [discriminate|].
    intros Herr. destruct (Hregenerate Herr) as (Hb & Hs & Hd).
    split_and!; [exact Hb | exact Hs |].
    rewrite Hd, listObjectsGetDiff_eq, Hall. reflexivity.
  - intros _. split_and!; try reflexivity.
    unfold ret. cbn [snd]. rewrite listObjectsGetDiff_eq, Hall. reflexivity.
Qed.
End FailedReconcile.

(** ** The order of the goroutines *)

Section Agreement.
Context {B : Type}.

Lemma upToLog_logsOnly (w1 w2 w1' w2' : World B) :
  upToLog w1 w2 → logsOnly w1 w1' → logsOnly w2 w2' → upToLog w1' w2'.
Proof.
  intros (Hb & Hs & Hi) (Hb1 & Hs1 & Hi1) (Hb2 & Hs2 & Hi2).
  unfold upToLog. split_and!; congruence.
Qed.

Lemma agree_ret {A} (a : A) : agree (B:=B) (ret a) (ret a).
Proof. intros w1 w2 Hw. split; [reflexivity | exact Hw]. Qed.

Lemma agree_bind {A C} (m1 m2 : M B A) (k1 k2 : A → M B C) :
  agree m1 m2 → (∀ a, agree (k1 a) (k2 a)) → agree (bind m1 k1) (bind m2 k2).
Proof.
  intros Hm Hk w1 w2 Hw. unfold bind. specialize (Hm w1 w2 Hw).
  destruct (m1 w1) as [a1 w1'], (m2 w2) as [a2 w2']. simpl in Hm.
  destruct Hm as [-> Hw']. apply Hk, Hw'.
Qed.

Lemma agree_logsOnly {A} (m : M B A) (f : B → Server → A) :
  (∀ w, (m w).1 = f (backend w) (server w)) → respects logsOnly m → agree m m.
Proof.
  intros Hval Hlog w1 w2 Hw. split.
  - rewrite !Hval. destruct Hw as (-> & -> & _). reflexivity.
  - eapply upToLog_logsOnly; [exact Hw | apply Hlog | apply Hlog].
Qed.

Lemma agree_Debugw (msg : string) (kv : list (string * string)) :
  agree (B:=B) (Debugw msg kv) (Debugw msg kv).
Proof.
  apply (agree_logsOnly _ (λ _ _, tt)); [reflexivity | apply respects_Debugw].
Qed.

Lemma agree_Warnw (msg : string) (kv : list (string * string)) :
  agree (B:=B) (Warnw msg kv) (Warnw msg kv).
Proof.
  apply (agree_logsOnly _ (λ _ _, tt)); [reflexivity | apply respects_Warnw].
Qed.

Lemma agree_getServer : agree (B:=B) getServer getServer.
Proof.
  apply (agree_logsOnly _ (λ _ s, s)); [reflexivity | apply respects_getServer, _].
Qed.

Lemma agree_putServer (s : Server) : agree (B:=B) (putServer s) (putServer s).
Proof.
  intros w1 w2 (Hb & Hs & Hi). split; [reflexivity|].
  unfold upToLog. simpl. split_and!; [exact Hb | reflexivity | exact Hi].
Qed.
End Agreement.

Create HintDb agree discriminated.

#[export] Hint Resolve agree_ret agree_Debugw agree_Warnw agree_getServer
  agree_putServer : agree.

(** Walks down two monadic terms of the same shape. *)
Ltac agreement :=
  repeat first
    [ solve [auto with agree]
    | apply agree_bind; [ | intros ? ]
    | match goal with
      | |- agree (match ?x with _ => _ end) _ => destruct x
      end ].

Section ScheduleIndependence.
Context {B : Type} `{!Backend B} `{!Decoder} `{!IndexAdapters}.

Lemma agree_updateEntries (index : Index)
    (f : gmap string (list ChartVersion) → gmap string (list ChartVersion)) :
  agree (B:=B) (updateEntries index f) (updateEntries index f).
Proof.
  intros w1 w2 (Hb & Hs & Hi). split; [reflexivity|].
  unfold upToLog, updateEntries, entriesOf. simpl. rewrite Hi.
  split_and!; [exact Hb | exact Hs | reflexivity].
Qed.

Hint Resolve agree_updateEntries : agree.

Lemma agree_AddEntry (index : Index) (cv : ChartVersion) :
  agree (B:=B) (AddEntry index cv) (AddEntry index cv).
Proof. unfold AddEntry. agreement. Qed.

Lemma agree_RemoveEntry (index : Index) (cv : ChartVersion) :
  agree (B:=B) (RemoveEntry index cv) (RemoveEntry index cv).
Proof. unfold RemoveEntry. agreement. Qed.

Lemma agree_UpdateEntry (index : Index) (cv : ChartVersion) :
  agree (B:=B) (UpdateEntry index cv) (UpdateEntry index cv).
Proof. apply agree_AddEntry. Qed.

Lemma agree_Regenerate (index : Index) :
  agree (B:=B) (Regenerate index) (Regenerate index).
Proof.
  intros w1 w2 Hw. pose proof Hw as (Hb & Hs & Hi).
  unfold Regenerate, entriesOf. rewrite Hi.
  destruct (serialize _); (split; [reflexivity | exact Hw]).
Qed.

Lemma agree_backendListObjects : agree (B:=B) backendListObjects backendListObjects.
Proof.
  apply (agree_logsOnly _ (λ b _, ListObjects b));
    [reflexivity | apply respects_backendListObjects, _].
Qed.

Lemma agree_backendGetObject (path : string) :
  agree (B:=B) (backendGetObject path) (backendGetObject path).
Proof.
  apply (agree_logsOnly _ (λ b _, GetObject b path));
    [reflexivity | apply respects_backendGetObject, _].
Qed.

Hint Resolve agree_AddEntry agree_RemoveEntry agree_UpdateEntry agree_Regenerate
  agree_backendListObjects agree_backendGetObject : agree.

Lemma agree_checkInvalidChartPackageError (object : Object) (err : error)
    (action : string) :
  agree (B:=B) (checkInvalidChartPackageError object err action)
        (checkInvalidChartPackageError object err action).
Proof. unfold checkInvalidChartPackageError. agreement. Qed.

Lemma agree_getObjectChartVersion (object : Object) (load : bool) :
  agree (B:=B) (getObjectChartVersion object load)
        (getObjectChartVersion object load).
Proof. unfold getObjectChartVersion. agreement. Qed.

Lemma agree_listObjectsGetDiff : agree (B:=B) listObjectsGetDiff listObjectsGetDiff.
Proof. unfold listObjectsGetDiff. agreement. Qed.

Hint Resolve agree_checkInvalidChartPackageError agree_getObjectChartVersion
  agree_listObjectsGetDiff : agree.

Lemma agree_removeIndexObject (index : Index) (object : Object) :
  agree (B:=B) (removeIndexObject index object) (removeIndexObject index object).
Proof. unfold removeIndexObject. agreement. Qed.

Lemma agree_updateIndexObject (index : Index) (object : Object) :
  agree (B:=B) (updateIndexObject index object) (updateIndexObject index object).
Proof. unfold updateIndexObject. agreement. Qed.

Lemma agree_forEachObject (f : Index → Object → M B (option error * Index))
    (objects : list Object) :
  (∀ index object, agree (f index object) (f index object)) →
  ∀ index, agree (forEachObject f index objects) (forEachObject f index objects).
Proof.
  intros Hf. induction objects as [|object rest IH]; intros index; simpl.
  - apply agree_ret.
  - apply agree_bind; [apply Hf|].
    intros [[err|] index']; simpl; [apply agree_ret | apply IH].
Qed.

Lemma agree_addLoaded (loaded : list (option ChartVersion)) :
  ∀ index, agree (B:=B) (addLoaded index loaded) (addLoaded index loaded).
Proof.
  induction loaded as [|[cv|] rest IH]; intros index; simpl.
  - apply agree_ret.
  - apply agree_bind; [apply agree_Debugw|]. intros _.
    apply agree_bind; [apply agree_AddEntry|]. intros index'. apply IH.
  - apply IH.
Qed.

(** The goroutines of one batch under two schedulers: the same error
    variable and the same slots; the warnings may be logged in another
    order. *)
Lemma agree_runGoroutines (S1 S2 : Scheduler) (objects : list Object) :
  agree (B:=B)
    (runGoroutines (@goSchedule S1 (length objects)) objects None
                   (replicate (length objects) None))
    (runGoroutines (@goSchedule S2 (length objects)) objects None
                   (replicate (length objects) None)).
Proof.
  intros w1 w2 Hw.
  pose proof (@runGoroutines_loaded B _ _ S1 objects w1) as Hl1.
  pose proof (@runGoroutines_loaded B _ _ S2 objects w2) as Hl2.
  pose proof (runGoroutines_err (@goSchedule S1 (length objects)) objects None
                (replicate (length objects) None) w1) as He1.
  pose proof (runGoroutines_err (@goSchedule S2 (length objects)) objects None
                (replicate (length objects) None) w2) as He2.
  pose proof (respects_runGoroutines (@goSchedule S1 (length objects)) objects None
                (replicate (length objects) None) w1) as Hw1.
  pose proof (respects_runGoroutines (@goSchedule S2 (length objects)) objects None
                (replicate (length objects) None) w2) as Hw2.
  destruct (runGoroutines (@goSchedule S1 _) _ _ _ w1) as [[err1 loaded1] w1'].
  destruct (runGoroutines (@goSchedule S2 _) _ _ _ w2) as [[err2 loaded2] w2'].
  simpl in *. subst. split.
  - destruct Hw as (-> & _ & _). reflexivity.
  - exact (upToLog_logsOnly _ _ _ _ Hw Hw1 Hw2).
Qed.

Lemma agree_addIndexObjectsAsync (S1 S2 : Scheduler) (index : Index)
    (objects : list Object) :
  agree (@addIndexObjectsAsync B _ _ _ S1 index objects)
        (@addIndexObjectsAsync B _ _ _ S2 index objects).
Proof.
  unfold addIndexObjectsAsync. destruct (_ =? _)%nat; [apply agree_ret|].
  apply agree_bind; [apply agree_Debugw|]. intros _.
  apply agree_bind; [apply agree_runGoroutines|].
  intros [[err|] loaded]; simpl; [apply agree_ret|].
  apply agree_bind; [apply agree_addLoaded|]. intros index'. apply agree_ret.
Qed.

Lemma agree_withStorageCacheLock {A} (m1 m2 : M B A) :
  agree m1 m2 → agree (withStorageCacheLock m1) (withStorageCacheLock m2).
Proof. intros Hm. unfold withStorageCacheLock. agreement. Qed.

Lemma agree_regenerateRepositoryIndex (S1 S2 : Scheduler) :
  agree (@regenerateRepositoryIndex B _ _ _ S1) (@regenerateRepositoryIndex B _ _ _ S2).
Proof.
  unfold regenerateRepositoryIndex. apply agree_withStorageCacheLock.
  apply agree_bind; [apply agree_listObjectsGetDiff|].
  intros [[objects diff]|err]; [|apply agree_ret].
  apply agree_bind; [apply agree_getServer|]. intros s.
  apply agree_bind; [apply agree_forEachObject, agree_removeIndexObject|].
  intros [[err|] index1]; simpl; [apply agree_ret|].
  apply agree_bind; [apply agree_forEachObject, agree_updateIndexObject|].
  intros [[err|] index2]; simpl; [apply agree_ret|].
  apply agree_bind; [apply agree_addIndexObjectsAsync|].
  intros [[err|] index3]; simpl; [apply agree_ret|].
  apply agree_bind; [apply agree_Debugw|]. intros _.
  apply agree_bind; [apply agree_Regenerate|].
  intros [[err|] index4]; simpl; [apply agree_ret|].
  agreement.
Qed.

Lemma agree_syncRepositoryIndex (S1 S2 : Scheduler) :
  agree (@syncRepositoryIndex B _ _ _ S1) (@syncRepositoryIndex B _ _ _ S2).
Proof.
  unfold syncRepositoryIndex.
  apply agree_bind; [apply agree_listObjectsGetDiff|].
  intros [[objects diff]|err]; [|apply agree_ret].
  destruct (negb _); [apply agree_ret | apply agree_regenerateRepositoryIndex].
Qed.

Lemma agree_syncOnRead (S1 S2 : Scheduler) (serve : M B Response) :
  agree serve serve →
  agree (@syncOnRead B _ _ _ S1 serve) (@syncOnRead B _ _ _ S2 serve).
Proof.
  intros Hserve. unfold syncOnRead.
  apply agree_bind; [apply agree_getServer|]. intros s.
  destruct (_ =? _); [|exact Hserve].
  apply agree_bind; [apply agree_syncRepositoryIndex|].
  intros [err|]; [apply agree_ret | exact Hserve].
Qed.

(** A handler body that reads the world answers from the server record
    and the index entries, not from the log. *)
Lemma agree_getWorld {A} (f : World B → A) :
  (∀ w1 w2, upToLog w1 w2 → f w1 = f w2) →
  agree (let! w := getWorld in ret (f w)) (let! w := getWorld in ret (f w)).
Proof. intros Hf w1 w2 Hw. split; [apply Hf, Hw | exact Hw]. Qed.

Lemma agree_Get (index : Index) (name version : string) :
  agree (B:=B) (Get index name version) (Get index name version).
Proof.
  intros w1 w2 Hw. split; [|exact Hw]. destruct Hw as (_ & _ & Hi).
  unfold Get, entriesOf. simpl. rewrite Hi. reflexivity.
Qed.

Lemma agree_readHandlers (S1 S2 : Scheduler) (c : Request) :
  agree (@getIndexFileRequestHandler B _ _ _ S1 c)
        (@getIndexFileRequestHandler B _ _ _ S2 c)
  ∧ agree (@getAllChartsRequestHandler B _ _ _ S1 c)
          (@getAllChartsRequestHandler B _ _ _ S2 c)
  ∧ agree (@getChartRequestHandler B _ _ _ S1 c)
          (@getChartRequestHandler B _ _ _ S2 c)
  ∧ agree (@getChartVersionRequestHandler B _ _ _ S1 c)
          (@getChartVersionRequestHandler B _ _ _ S2 c).
Proof.
  split_and!.
  - apply agree_syncOnRead. agreement.
  - apply agree_syncOnRead.
    apply (agree_getWorld
             (λ w, JSON 200 (EntriesJSON (entriesOf w (RepositoryIndex (server w)))))).
    intros w1 w2 (_ & Hs & Hi). unfold entriesOf. rewrite Hs, Hi. reflexivity.
  - apply agree_syncOnRead.
    intros w1 w2 Hw. pose proof Hw as (_ & Hs & Hi).
    unfold bind, getWorld, entriesOf. rewrite Hs, Hi.
    destruct (_ !! _); (split; [reflexivity | exact Hw]).
  - apply agree_syncOnRead.
    apply agree_bind; [apply agree_getServer|]. intros s.
    apply agree_bind; [apply agree_Get|]. intros [cv|e]; apply agree_ret.
Qed.

Lemma upToLog_refl (w : World B) : upToLog w w.
Proof. unfold upToLog. split_and!; reflexivity. Qed.

(** X14.  The order in which the scheduler runs the loader's goroutines
    does not show in the result of a reconcile: under any two schedulers,
    [regenerateRepositoryIndex] and [syncRepositoryIndex] return the same
    error and leave the same blob store, server record (index, cache) and
    index entries, and the four read handlers write the same response.
    Only the log may differ. *)
Theorem reconcile_is_schedule_independent (S1 S2 : Scheduler) (c : Request)
    (w : World B) :
  ((@regenerateRepositoryIndex B _ _ _ S1 w).1
   = (@regenerateRepositoryIndex B _ _ _ S2 w).1
   ∧ upToLog (@regenerateRepositoryIndex B _ _ _ S1 w).2
             (@regenerateRepositoryIndex B _ _ _ S2 w).2)
  ∧ ((@syncRepositoryIndex B _ _ _ S1 w).1 = (@syncRepositoryIndex B _ _ _ S2 w).1
     ∧ upToLog (@syncRepositoryIndex B _ _ _ S1 w).2
               (@syncRepositoryIndex B _ _ _ S2 w).2)
  ∧ (@getIndexFileRequestHandler B _ _ _ S1 c w).1
    = (@getIndexFileRequestHandler B _ _ _ S2 c w).1
  ∧ (@getAllChartsRequestHandler B _ _ _ S1 c w).1
    = (@getAllChartsRequestHandler B _ _ _ S2 c w).1
  ∧ (@getChartRequestHandler B _ _ _ S1 c w).1
    = (@getChartRequestHandler B _ _ _ S2 c w).1
  ∧ (@getChartVersionRequestHandler B _ _ _ S1 c w).1
    = (@getChartVersionRequestHandler B _ _ _ S2 c w).1.
Proof.
  destruct (agree_readHandlers S1 S2 c) as (Hindex & Hall & Hchart & Hversion).
  split_and!.
  - apply agree_regenerateRepositoryIndex, upToLog_refl.
  - apply agree_regenerateRepositoryIndex, upToLog_refl.
  - apply agree_syncRepositoryIndex, upToLog_refl.
  - apply agree_syncRepositoryIndex, upToLog_refl.
  - apply Hindex, upToLog_refl.
  - apply Hall, upToLog_refl.
  - apply Hchart, upToLog_refl.
  - apply Hversion, upToLog_refl.
Qed.
End ScheduleIndependence.

(** ** Refresh-on-read mode: mutations leave the index to the next read *)

Section RefreshOnRead.
Context {B : Type} `{!Backend B} `{!Decoder} `{!IndexAdapters}.

#[export] Instance idleIndex_preorder : PreOrder (idleIndex (B:=B)).
Proof.
  split.
  - intros w _. reflexivity.
  - intros a b c Hab Hbc Ha. pose proof (Hab Ha) as [Hs Hi].
    assert (Hb : (0 <? CacheRefreshPeriod (server b)) = false) by (rewrite Hs; exact Ha).
    destruct (Hbc Hb) as [Hs' Hi']. split; congruence.
Qed.

Lemma respects_sameIndex_idleIndex {A} (m : M B A) :
  respects sameIndex m → respects idleIndex m.
Proof. intros Hm w _. apply Hm. Qed.

(** After [getServer] the continuation may assume the mode it read. *)
Lemma respects_idleIndex_getServer {A} (k : Server → M B A) :
  (∀ s, (0 <? CacheRefreshPeriod s) = false → respects idleIndex (k s)) →
  respects idleIndex (bind getServer k).
Proof. intros Hk w Hw. exact (Hk (server w) Hw w Hw). Qed.

Lemma respects_idleIndex_lockIfPeriodic {A} (body : M B A) :
  respects idleIndex body → respects idleIndex (lockIfPeriodic body).
Proof.
  intros Hbody. unfold lockIfPeriodic. apply respects_idleIndex_getServer.
  intros s ->. exact Hbody.
Qed.

Lemma respects_idleIndex_storeFiles (ppFiles : list packageOrProvenanceFile) :
  ∀ storedFiles, respects idleIndex (storeFiles ppFiles storedFiles).
Proof.
  induction ppFiles as [|ppf rest IH]; intros storedFiles; simpl.
  - apply respects_ret, _.
  - apply respects_bind; [apply _ | apply respects_sameIndex_idleIndex; frame |].
    intros _.
    apply respects_bind; [apply _ | apply respects_sameIndex_idleIndex; frame |].
    intros [err|].
    + apply respects_sameIndex_idleIndex.
      apply respects_bind; [apply _ | apply respects_deleteStoredFiles |].
      intros _. apply respects_ret, _.
    + apply respects_idleIndex_getServer. intros s ->. simpl.
      apply respects_bind; [apply _ | apply respects_ret, _ | intros _; apply IH].
Qed.

(** X15.  In refresh-on-read mode ([CacheRefreshPeriod] not positive) no
    upload and no delete, whatever its outcome, touches the server record
    (index, cache, settings) or the index entries. *)
Theorem refresh_on_read_mutations_leave_index (c : Request) (w : World B) :
  CacheRefreshPeriod (server w) ≤ 0 →
  sameIndex w (postRequestHandler c w).2
  ∧ sameIndex w (postProvenanceFileRequestHandler c w).2
  ∧ sameIndex w (deleteChartVersionRequestHandler c w).2.
Proof.
  intros Hperiod.
  assert (Hidle : (0 <? CacheRefreshPeriod (server w)) = false)
    by (apply Z.ltb_ge; exact Hperiod).
  assert (Hmultipart : respects idleIndex (postPackageAndProvenanceRequestHandler c)).
  { unfold postPackageAndProvenanceRequestHandler.
    apply respects_idleIndex_lockIfPeriodic.
    apply respects_bind; [apply _ | apply respects_getServer, _ |]. intros s.
    apply respects_bind;
      [apply _ | apply respects_sameIndex_idleIndex, respects_extractFormFiles |].
    intros [response|ppFiles]; [apply respects_ret, _|].
    destruct (_ =? _)%nat; [apply respects_ret, _ | apply respects_idleIndex_storeFiles]. }
  assert (Hraw : respects idleIndex (postPackageRequestHandler c)).
  { unfold postPackageRequestHandler.
    apply respects_idleIndex_lockIfPeriodic.
    destruct (RawData c) as [content|e]; [|apply respects_ret, _].
    destruct (ChartPackageFilenameFromContent content) as [name|e];
      [|apply respects_ret, _].
    apply respects_bind; [apply _ | apply respects_getServer, _ |]. intros s.
    apply respects_bind; [apply _ | apply respects_sameIndex_idleIndex; frame |].
    intros [|]; [apply respects_ret, _|].
    apply respects_bind; [apply _ | apply respects_sameIndex_idleIndex; frame |].
    intros _.
    apply respects_bind; [apply _ | apply respects_sameIndex_idleIndex; frame |].
    intros [err|]; [apply respects_ret, _|].
    apply respects_idleIndex_getServer. intros s' ->. apply respects_ret, _. }
  assert (Hdelete : respects idleIndex (deleteChartVersionRequestHandler c)).
  { unfold deleteChartVersionRequestHandler.
    apply respects_idleIndex_lockIfPeriodic.
    apply respects_bind; [apply _ | apply respects_sameIndex_idleIndex; frame |].
    intros _.
    apply respects_bind; [apply _ | apply respects_sameIndex_idleIndex; frame |].
    intros [err|]; [apply respects_ret, _|].
    apply respects_bind; [apply _ | apply respects_sameIndex_idleIndex; frame |].
    intros _.
    apply respects_idleIndex_getServer. intros s' ->. apply respects_ret, _. }
  split_and!.
  - unfold postRequestHandler. destruct (decide _); [apply Hmultipart | apply Hraw]; exact Hidle.
  - assert (Hstore : respects sameIndex (postProvenanceFileRequestHandler c))
      by (unfold postProvenanceFileRequestHandler; frame).
    apply Hstore.
  - apply Hdelete, Hidle.
Qed.
End RefreshOnRead.

(** ** The status codes a handler can answer *)

Section StatusCodes.
Context {B : Type} `{!Backend B} `{!Decoder} `{!IndexAdapters} `{!Scheduler}.

Lemma returns_bind_after {A C} (P : A → Prop) (Q : C → Prop) (m : M B A)
    (k : A → M B C) :
  returns P m → (∀ a, P a → returns Q (k a)) → returns Q (bind m k).
Proof.
  intros Hm Hk w. unfold bind. specialize (Hm w).
  destruct (m w) as [a w1]. apply Hk, Hm.
Qed.

Lemma returns_withStorageCacheLock {A} (Q : A → Prop) (body : M B A) :
  returns Q body → returns Q (withStorageCacheLock body).
Proof.
  intros Hbody w. unfold withStorageCacheLock, bind, Debugw. simpl.
  match goal with |- context [body ?w0] => specialize (Hbody w0); destruct (body w0) end.
  exact Hbody.
Qed.

Lemma returns_lockIfPeriodic {A} (Q : A → Prop) (body : M B A) :
  returns Q body → returns Q (lockIfPeriodic body).
Proof.
  intros Hbody. unfold lockIfPeriodic. apply returns_bind. intros s.
  destruct (0 <? _); [apply returns_withStorageCacheLock|]; exact Hbody.
Qed.

Lemma returns_syncOnRead (Q : Response → Prop) (serve : M B Response) :
  (∀ err, Q (JSON 500 (errorResponse err))) →
  returns Q serve → returns Q (syncOnRead serve).
Proof.
  intros Herr Hserve. unfold syncOnRead. apply returns_bind. intros s.
  destruct (_ =? _); [|exact Hserve].
  apply returns_bind. intros [err|]; [apply returns_ret, Herr | exact Hserve].
Qed.

Lemma returns_extractAndValidateFormFile (req : Request) (field : string)
    (fn : bytes → result string) :
  returns (λ r, match r with
                | (_, st, Some _) => st = 400 ∨ st = 409 ∨ st = 500
                | (_, _, None) => True
                end)
          (extractAndValidateFormFile (B:=B) req field fn).
Proof.
  unfold extractAndValidateFormFile.
  destruct (FormFile req field) as [[content|e]|];
    [|apply returns_ret; auto | apply returns_ret; exact I].
  destruct (fn content) as [name|e]; [|apply returns_ret; auto].
  apply returns_bind. intros s.
  destruct (negb _); [|apply returns_ret; exact I].
  apply returns_bind. intros [o|e]; apply returns_ret; [auto | exact I].
Qed.

Lemma returns_extractFormFiles (req : Request)
    (ffp : list (string * (bytes → result string))) :
  ∀ ppFiles,
    returns (λ r, match r with
                  | inl response =>
                      status response = 400 ∨ status response = 409
                      ∨ status response = 500
                  | inr _ => True
                  end)
            (extractFormFiles (B:=B) req ffp ppFiles).
Proof.
  induction ffp as [|ff rest IH]; intros ppFiles; simpl.
  - apply returns_ret. exact I.
  - eapply returns_bind_after; [apply returns_extractAndValidateFormFile|].
    intros [[[ppf|] st] [err|]] Hst; first [apply IH | apply returns_ret; exact Hst].
Qed.

Lemma returns_storeFiles (ppFiles : list packageOrProvenanceFile) :
  ∀ storedFiles,
    returns (λ r, status r = 201 ∨ status r = 500) (storeFiles ppFiles storedFiles).
Proof.
  induction ppFiles as [|ppf rest IH]; intros storedFiles; simpl.
  - apply returns_ret. left. reflexivity.
  - apply returns_bind. intros _. apply returns_bind. intros [err|].
    + apply returns_bind. intros _. apply returns_ret. right. reflexivity.
    + apply returns_bind. intros s. apply returns_bind. intros _. apply IH.
Qed.

(** X16.  The status codes each handler can answer, whatever the request
    and the state: the index file and the chart list answer 200 or 500; a
    chart, a chart version, a stored object and a delete answer 200, 404 or
    500; a raw package or provenance upload answers 201 or 500, never 400
    or 409; a multipart upload answers 201, 400, 409 or 500. *)
Theorem handler_status_codes (c : Request) (w : World B) :
  (status (getIndexFileRequestHandler c w).1 ∈ [200; 500])
  ∧ (status (getAllChartsRequestHandler c w).1 ∈ [200; 500])
  ∧ (status (getChartRequestHandler c w).1 ∈ [200; 404; 500])
  ∧ (status (getChartVersionRequestHandler c w).1 ∈ [200; 404; 500])
  ∧ (status (getStorageObjectRequestHandler c w).1 ∈ [200; 404; 500])
  ∧ (status (deleteChartVersionRequestHandler c w).1 ∈ [200; 404; 500])
  ∧ (status (postPackageRequestHandler c w).1 ∈ [201; 500])
  ∧ (status (postProvenanceFileRequestHandler c w).1 ∈ [201; 500])
  ∧ (status (postPackageAndProvenanceRequestHandler c w).1 ∈ [201; 400; 409; 500]).
Proof.
  assert (Hin : ∀ (code : Z) (codes : list Z),
            bool_decide (code ∈ codes) = true → code ∈ codes)
    by (intros code codes; apply bool_decide_eq_true_1).
  split_and!.
  - apply (returns_syncOnRead (λ r, status r ∈ [200; 500]));
      [intros err; apply Hin; reflexivity|].
    apply returns_bind. intros s. apply returns_ret, Hin. reflexivity.
  - apply (returns_syncOnRead (λ r, status r ∈ [200; 500]));
      [intros err; apply Hin; reflexivity|].
    apply returns_bind. intros w'. apply returns_ret, Hin. reflexivity.
  - apply (returns_syncOnRead (λ r, status r ∈ [200; 404; 500]));
      [intros err; apply Hin; reflexivity|].
    apply returns_bind. intros w'.
    destruct (_ !! _); apply returns_ret, Hin; reflexivity.
  - apply (returns_syncOnRead (λ r, status r ∈ [200; 404; 500]));
      [intros err; apply Hin; reflexivity|].
    apply returns_bind. intros s. apply returns_bind.
    intros [cv|e]; apply returns_ret, Hin; reflexivity.
  - revert w. change (returns (λ r, status r ∈ [200; 404; 500])
                              (getStorageObjectRequestHandler c)).
    unfold getStorageObjectRequestHandler.
    destruct (_ && _); [apply returns_ret, Hin; reflexivity|].
    apply returns_bind. intros [o|e]; [|apply returns_ret, Hin; reflexivity].
    destruct (HasSuffix _ _); apply returns_ret, Hin; reflexivity.
  - apply (returns_lockIfPeriodic (λ r, status r ∈ [200; 404; 500])).
    apply returns_bind. intros _. apply returns_bind.
    intros [err|]; [apply returns_ret, Hin; reflexivity|].
    apply returns_bind. intros _. apply returns_bind. intros s.
    destruct (0 <? _); [|apply returns_ret, Hin; reflexivity].
    apply returns_bind. intros [err|]; apply returns_ret, Hin; reflexivity.
  - apply (returns_lockIfPeriodic (λ r, status r ∈ [201; 500])).
    destruct (RawData c) as [content|e]; [|apply returns_ret, Hin; reflexivity].
    destruct (ChartPackageFilenameFromContent content) as [name|e];
      [|apply returns_ret, Hin; reflexivity].
    apply returns_bind. intros s. apply returns_bind.
    intros [|]; [apply returns_ret, Hin; reflexivity|].
    apply returns_bind. intros _. apply returns_bind.
    intros [err|]; [apply returns_ret, Hin; reflexivity|].
    apply returns_bind. intros s'.
    destruct (0 <? _); [|apply returns_ret, Hin; reflexivity].
    apply returns_bind. intros r. apply returns_bind.
    intros [err|]; apply returns_ret, Hin; reflexivity.
  - revert w. change (returns (λ r, status r ∈ [201; 500])
                              (postProvenanceFileRequestHandler c)).
    unfold postProvenanceFileRequestHandler.
    destruct (RawData c) as [content|e]; [|apply returns_ret, Hin; reflexivity].
    destruct (ProvenanceFilenameFromContent content) as [name|e];
      [|apply returns_ret, Hin; reflexivity].
    apply returns_bind. intros s. apply returns_bind.
    intros [|]; [apply returns_ret, Hin; reflexivity|].
    apply returns_bind. intros _. apply returns_bind.
    intros [err|]; apply returns_ret, Hin; reflexivity.
  - apply (returns_lockIfPeriodic (λ r, status r ∈ [201; 400; 409; 500])).
    apply returns_bind. intros s.
    eapply returns_bind_after; [apply returns_extractFormFiles|].
    intros [response|ppFiles] Hst.
    + apply returns_ret. destruct Hst as [->|[->| ->]]; apply Hin; reflexivity.
    + destruct (_ =? _)%nat; [apply returns_ret, Hin; reflexivity|].
      intros w'. destruct (returns_storeFiles ppFiles [] w') as [->| ->];
        apply Hin; reflexivity.
Qed.
End StatusCodes.

(** ** Looking an object up in the cache *)

Section CacheLookup.
Context {B : Type} `{!Backend B} `{!Decoder} `{!IndexAdapters}.

(** X17.  [findObject] reads the cache only and leaves the world as it
    is.  It returns the first cached object with the given path, and it
    fails, with an error that names the file, exactly when the cache holds
    no object with that path; the blob store is not asked. *)
Theorem findObject_outcomes (filename : string) (w : World B) :
  (findObject filename w).2 = w
  ∧ (∀ o, (findObject filename w).1 = Ok o →
       ∃ idx, StorageCache (server w) !! idx = Some o
              ∧ Path o = filename
              ∧ ∀ j o', StorageCache (server w) !! j = Some o' →
                        (j < idx)%nat → Path o' ≠ filename)
  ∧ ((∃ o, o ∈ StorageCache (server w) ∧ Path o = filename) →
     is_Ok (findObject filename w).1 = true)
  ∧ ((∀ o, o ∈ StorageCache (server w) → Path o ≠ filename) →
     (findObject filename w).1
     = Err (Errorf ("object with filename '" +:+ filename +:+ "' not found"))).
Proof.
  unfold findObject, bind, getServer.
  destruct (list_find _ _) as [[idx o]|] eqn:Hfind; cbn [fst snd ret].
  - apply list_find_Some in Hfind as (Hlook & Hpath & Hfirst).
    split_and!.
    + reflexivity.
    + intros o' [= <-]. exists idx. split_and!; [exact Hlook | exact Hpath | exact Hfirst].
    + intros _. reflexivity.
    + intros Hnone. exfalso. apply (Hnone o); [|exact Hpath].
      eapply list_elem_of_lookup_2, Hlook.
  - apply list_find_None in Hfind. rewrite Forall_forall in Hfind.
    split_and!.
    + reflexivity.
    + intros o [=].
    + intros (o & Hin & Hpath). exfalso. exact (Hfind o Hin Hpath).
    + intros _. reflexivity.
Qed.
End CacheLookup.

(** ** The code on concrete inputs *)

Module Runs.
Import Doubles Scenarios.

(** Cold start: two names, the versions of [alpha] newest first, the
    invalid package left out, the cache holding the filtered listing. *)
Example cold_start :
  (regenerateRepositoryIndex (newWorld coldStore (newServer false 0))).1 = None
  ∧ versionsOf started "alpha" = ["2.0"; "1.0"]
  ∧ versionsOf started "beta" = ["1.0"]
  ∧ dom (liveEntries started) = {[ "alpha"; "beta" ]}
  ∧ StorageCache (server started) = [alpha1; alpha2; junk; beta1].
Proof. split_and!; vm_compute; reflexivity. Qed.

(** The loader fills the same slots whichever goroutine runs first. *)
Example loader_order_is_irrelevant :
  (runGoroutines (@goSchedule lastFirst 3)
     [alpha1; junk; beta1] None (replicate 3 None)
     (newWorld coldStore (newServer false 0))).1.2
  = (runGoroutines (@goSchedule inOrder 3)
       [alpha1; junk; beta1] None (replicate 3 None)
       (newWorld coldStore (newServer false 0))).1.2.
Proof. vm_compute. reflexivity. Qed.

(** C1, the code at the failing input.  The listing adds [alpha-1.0.pkg]
    and [beta-1.0.pkg]; fetching the first fails with a transient error.
    The loader reports no error, the reconcile succeeds, the index has no
    entry for [alpha], and the cache holds [alpha-1.0.pkg] as if it had
    been loaded. *)
Theorem reconcile_loses_transient_fetch_error :
  Added (GetObjectSliceDiff (StorageCache (server flakyWorld)) [alpha1; beta1])
    = [alpha1; beta1]
  ∧ GetObject (backend flakyWorld) (Path alpha1)
    = Err (TransientIO "get: connection reset")
  ∧ (addIndexObjectsAsync (RepositoryIndex (server flakyWorld)) [alpha1; beta1]
       flakyWorld).1.1 = None
  ∧ (regenerateRepositoryIndex flakyWorld).1 = None
  ∧ versionsOf (regenerateRepositoryIndex flakyWorld).2 "alpha" = []
  ∧ versionsOf (regenerateRepositoryIndex flakyWorld).2 "beta" = ["1.0"]
  ∧ StorageCache (server (regenerateRepositoryIndex flakyWorld).2) = [alpha1; beta1].
Proof. split_and!; vm_compute; reflexivity. Qed.

(** C2, the code at the failing input.  The store lost [alpha-1.0.pkg]
    and fetching the updated [beta-1.0.pkg] fails.  The reconcile removes
    [alpha 1.0] from the entries, then fails on the update and returns the
    error: the server fields are the ones before, the entries of the live
    index are not. *)
Theorem failed_reconcile_edits_live_index :
  (regenerateRepositoryIndex driftedWorld).1
    = Some (TransientIO "get: connection reset")
  ∧ server (regenerateRepositoryIndex driftedWorld).2 = server driftedWorld
  ∧ versionsOf driftedWorld "alpha" = ["2.0"; "1.0"]
  ∧ versionsOf (regenerateRepositoryIndex driftedWorld).2 "alpha" = ["2.0"]
  ∧ liveEntries (regenerateRepositoryIndex driftedWorld).2 ≠ liveEntries driftedWorld.
Proof.
  split_and!; try (vm_compute; reflexivity).
  intros Heq. apply (f_equal (λ e, versionsAt e "alpha")) in Heq.
  vm_compute in Heq. discriminate.
Qed.



(** C4, the code at the failing input.  Decoding the object fails with an
    error that is not [ErrorInvalidChartPackage]; the error is returned and
    the cache still holds the object appended before decoding. *)
Theorem addChartPackage_error_keeps_append :
  ChartVersionFromStorageObject truncated = Err (Errorf "unexpected EOF")
  ∧ (addChartPackage truncated started).1 = Some (Errorf "unexpected EOF")
  ∧ StorageCache (server (addChartPackage truncated started).2)
    = (StorageCache (server started) ++ [truncated])%list
  ∧ StorageCache (server (addChartPackage truncated started).2)
    ≠ StorageCache (server started).
Proof.
  split_and!; try (vm_compute; reflexivity).
  intros Heq. apply (f_equal length) in Heq. vm_compute in Heq. discriminate.
Qed.

(** C5, the code at the failing input.  On a periodic server whose [Raw]
    is the serialization of its entries, a raw upload of [beta 1.0]
    succeeds and a delete of [alpha 1.0] succeeds.  Each changes the
    entries and returns, the lock released, with [Raw] empty while the
    serialization of the entries is not: [Regenerate] was not called, and
    would still change the index.  The index file is then served empty.
    The reconcile of the ticker, on the same state, regenerates [Raw]. *)
Theorem upload_does_not_regenerate :
  0 < CacheRefreshPeriod (server ticking)
  ∧ serialize (liveEntries ticking) = Ok (Raw (RepositoryIndex (server ticking)))
  ∧ Raw (RepositoryIndex (server ticking)) ≠ []
  ∧ (postRequestHandler (rawUpload (Content beta1)) ticking).1
    = JSON 201 objectSavedResponse
  ∧ versionsOf (postRequestHandler (rawUpload (Content beta1)) ticking).2 "beta"
    = ["1.0"]
  ∧ Raw (RepositoryIndex (server (postRequestHandler (rawUpload (Content beta1)) ticking).2))
    = []
  ∧ serialize (liveEntries (postRequestHandler (rawUpload (Content beta1)) ticking).2)
    ≠ Ok []
  ∧ Regenerate
      (RepositoryIndex (server (postRequestHandler (rawUpload (Content beta1)) ticking).2))
      (postRequestHandler (rawUpload (Content beta1)) ticking).2
    ≠ ((None,
        RepositoryIndex (server (postRequestHandler (rawUpload (Content beta1)) ticking).2)),
       (postRequestHandler (rawUpload (Content beta1)) ticking).2)
  ∧ (getIndexFileRequestHandler (request [])
       (postRequestHandler (rawUpload (Content beta1)) ticking).2).1
    = {| status := 200; body := Data IndexFileContentType [] |}
  ∧ (deleteChartVersionRequestHandler deleteAlpha1 ticking).1
    = JSON 200 objectDeletedResponse
  ∧ versionsOf (deleteChartVersionRequestHandler deleteAlpha1 ticking).2 "alpha"
    = ["2.0"]
  ∧ Raw (RepositoryIndex (server (deleteChartVersionRequestHandler deleteAlpha1 ticking).2))
    = []
  ∧ serialize (liveEntries (deleteChartVersionRequestHandler deleteAlpha1 ticking).2)
    ≠ Ok []
  ∧ serialize (liveEntries
                 (Update (postRequestHandler (rawUpload (Content beta1)) ticking).2).2)
    = Ok (Raw (RepositoryIndex
                 (server (Update (postRequestHandler (rawUpload (Content beta1))
                                    ticking).2).2)))
  ∧ Raw (RepositoryIndex
           (server (Update (postRequestHandler (rawUpload (Content beta1))
                              ticking).2).2))
    ≠ [].
Proof.
  split_and!;
    first [ vm_compute; reflexivity | vm_compute; discriminate ].
Qed.

(** Invariant I1 on a periodic server: an upload and a delete. *)
Lemma incremental_mutations_keep_I1_witness :
  I1 ticking
  ∧ I1 (postPackageRequestHandler (rawUpload (Content beta1)) ticking).2
  ∧ I1 (deleteChartVersionRequestHandler deleteAlpha1 ticking).2.
Proof.
  assert (HI : I1 ticking) by (right; vm_compute; reflexivity).
  split; [exact HI|]. split.
  - destruct (incremental_mutations_keep_I1 (rawUpload (Content beta1)) ticking HI)
      as ((Hraw & _) & _ & _).
    exact Hraw.
  - destruct (incremental_mutations_keep_I1 deleteAlpha1 ticking HI)
      as (_ & _ & Hdel & _).
    exact Hdel.
Defined.

(** C6, the code at the failing input.  In periodic mode the package is
    stored and added to cache and index, then the store refuses the
    provenance file.  The request answers 500 and the package is deleted
    from the store again; the index still lists [alpha 1.0] and the cache
    still holds the package. *)
Theorem partial_multipart_failure_leaves_index_entry :
  (postRequestHandler packageAndProvenance tickingEmpty).1
    = JSON 500 (errorResponse (TransientIO "put: connection reset"))
  ∧ objs (backend (postRequestHandler packageAndProvenance tickingEmpty).2) = []
  ∧ versionsOf tickingEmpty "alpha" = []
  ∧ versionsOf (postRequestHandler packageAndProvenance tickingEmpty).2 "alpha" = ["1.0"]
  ∧ StorageCache (server tickingEmpty) = []
  ∧ Path <$> StorageCache (server (postRequestHandler packageAndProvenance tickingEmpty).2)
    = ["alpha-1.0.pkg"].
Proof. split_and!; vm_compute; reflexivity. Qed.

(** In refresh-on-read mode the same failure leaves the index as it was;
    when the cleanup delete fails too, the error of [PutObject] is still
    the answer and the store keeps the package. *)
Example partial_multipart_failure_on_read :
  (postRequestHandler packageAndProvenance readingEmpty).1
    = JSON 500 (errorResponse (TransientIO "put: connection reset"))
  ∧ objs (backend (postRequestHandler packageAndProvenance readingEmpty).2) = []
  ∧ server (postRequestHandler packageAndProvenance readingEmpty).2
    = server readingEmpty
  ∧ indexFiles (postRequestHandler packageAndProvenance readingEmpty).2
    = indexFiles readingEmpty
  ∧ (postRequestHandler packageAndProvenance stickyWorld).1
    = JSON 500 (errorResponse (TransientIO "put: connection reset"))
  ∧ Path <$> objs (backend (postRequestHandler packageAndProvenance stickyWorld).2)
    = ["alpha-1.0.pkg"].
Proof. split_and!; vm_compute; reflexivity. Qed.

(** A reconcile over a store whose only package has no content succeeds,
    indexes nothing, caches the object and logs the warning. *)
Example hollow_package_is_omitted :
  (regenerateRepositoryIndex hollowWorld).1 = None
  ∧ liveEntries (regenerateRepositoryIndex hollowWorld).2 = ∅
  ∧ StorageCache (server (regenerateRepositoryIndex hollowWorld).2) = [hollow]
  ∧ {| level := WarnLevel; message := "Invalid package in storage";
       fields := [("action", "added"); ("package", "hollow-0.1.pkg")] |}
    ∈ logged (regenerateRepositoryIndex hollowWorld).2.
Proof.
  split_and!; try (vm_compute; reflexivity).
  vm_compute. do 3 right. left.
Qed.

(** C7, witness: the cold start followed by a second read. *)
Lemma reconcile_idempotent_witness :
  syncRepositoryIndex (newWorld coldStore (newServer false 0)) = (None, started)
  ∧ syncRepositoryIndex started = (None, started).
Proof.
  assert (Hfirst : syncRepositoryIndex (newWorld coldStore (newServer false 0))
                   = (None, started)) by (vm_compute; reflexivity).
  split; [exact Hfirst|].
  apply (reconcile_idempotent_on_steady_state
           (newWorld coldStore (newServer false 0)) started).
  - intros all Hall. vm_compute in Hall. injection Hall as <-.
    apply (@bool_decide_unpack _ (NoDup_dec _)). vm_compute. exact I.
  - left. exact Hfirst.
Defined.

(** C8, counterexample.  In periodic mode the package is in the store and
    not yet in the cache: the delete removes the file and answers 500, not
    200. *)
Lemma delete_of_uncached_package_is_500 :
  0 < CacheRefreshPeriod (server outOfBand)
  ∧ GetObject (backend outOfBand) (packageFile deleteAlpha1) = Ok alpha1
  ∧ (DeleteObject (backend outOfBand) (packageFile deleteAlpha1)).1 = None
  ∧ status (deleteChartVersionRequestHandler deleteAlpha1 outOfBand).1 = 500
  ∧ status (deleteChartVersionRequestHandler deleteAlpha1 outOfBand).1 ≠ 200
  ∧ objs (backend (deleteChartVersionRequestHandler deleteAlpha1 outOfBand).2) = [alpha2].
Proof.
  split_and!; try (vm_compute; reflexivity). vm_compute. discriminate.
Qed.

(** C8, witness: deleting [alpha 1.0] twice on a periodic server. *)
Lemma delete_version_witness :
  (DeleteObject (backend ticking) (packageFile deleteAlpha1)).1 = None
  ∧ (deleteChartVersionRequestHandler deleteAlpha1 ticking).1
    = JSON 200 objectDeletedResponse
  ∧ versionsOf (deleteChartVersionRequestHandler deleteAlpha1 ticking).2 "alpha" = ["2.0"]
  ∧ (deleteChartVersionRequestHandler deleteAlpha1
       (deleteChartVersionRequestHandler deleteAlpha1 ticking).2).1
    = JSON 404 notFoundErrorResponse.
Proof.
  assert (Hdel : (DeleteObject (backend ticking) (packageFile deleteAlpha1)).1 = None)
    by (vm_compute; reflexivity).
  split; [exact Hdel|].
  pose proof (delete_version (BackendContract0:=memBackend_contract)
                deleteAlpha1 ticking Hdel) as (_ & _ & Hperiodic & Hsecond).
  destruct (Hperiodic ltac:(reflexivity)) as [Hcached _].
  destruct (Hcached 0%nat alpha1
              {| Name := "alpha"; Version := "1.0"; URLs := ["charts/alpha-1.0.pkg"];
                 Digest := ""; Created := 1 |}
              ltac:(vm_compute; reflexivity) ltac:(vm_compute; reflexivity))
    as (Hresp & _ & _ & _).
  split; [exact Hresp|]. split; [vm_compute; reflexivity | exact Hsecond].
Defined.

(** C9, counterexample.  [GetObject] and [DeleteObject] fail with a
    transient error on a file the store holds: both requests answer 404,
    not 500. *)
Lemma transient_errors_answer_404 :
  GetObject (backend brokenWorld) (Param getAlpha1 "filename")
    = Err (TransientIO "get: connection reset")
  ∧ status (getStorageObjectRequestHandler getAlpha1 brokenWorld).1 = 404
  ∧ status (getStorageObjectRequestHandler getAlpha1 brokenWorld).1 ≠ 500
  ∧ (DeleteObject (backend brokenWorld) (packageFile deleteAlpha1)).1
    = Some (TransientIO "delete: connection reset")
  ∧ status (deleteChartVersionRequestHandler deleteAlpha1 brokenWorld).1 = 404
  ∧ status (deleteChartVersionRequestHandler deleteAlpha1 brokenWorld).1 ≠ 500.
Proof. split_and!; try (vm_compute; reflexivity); vm_compute; discriminate. Qed.

(** C9, witness: the same two requests. *)
Lemma backend_errors_surface_as_not_found_witness :
  getStorageObjectRequestHandler getAlpha1 brokenWorld
    = (JSON 404 notFoundErrorResponse, brokenWorld)
  ∧ (deleteChartVersionRequestHandler deleteAlpha1 brokenWorld).1
    = JSON 404 notFoundErrorResponse.
Proof.
  split.
  - apply (proj1 (backend_errors_surface_as_not_found getAlpha1 brokenWorld)
             (TransientIO "get: connection reset")); reflexivity.
  - apply (proj2 (backend_errors_surface_as_not_found deleteAlpha1 brokenWorld)
             (TransientIO "delete: connection reset")). reflexivity.
Defined.

(** C10, witness: a package stored with no content. *)
Lemma empty_content_is_invalid_artifact_witness :
  GetObject (backend hollowWorld) (Path hollow) = Ok hollow
  ∧ Content hollow = []
  ∧ getObjectChartVersion hollow true hollowWorld
    = (Err ErrorInvalidChartPackage, hollowWorld).
Proof.
  split; [reflexivity|]. split; [reflexivity|].
  apply (empty_content_is_invalid_artifact hollowWorld hollow hollow); reflexivity.
Defined.

End Runs.

(** ** Runs of the further properties *)

Module FurtherRuns.
Import Doubles Scenarios.

(** X2, witness: a read while the store cannot be listed. *)
Lemma listing_failure_answers_500_witness :
  CacheRefreshPeriod (server downWorld) = 0
  ∧ ListObjects (backend downWorld) = Err (TransientIO "list: connection reset")
  ∧ getIndexFileRequestHandler (request []) downWorld
    = (JSON 500 (errorResponse (TransientIO "list: connection reset")), downWorld).
Proof.
  assert (Hperiod : CacheRefreshPeriod (server downWorld) = 0)
    by (vm_compute; reflexivity).
  assert (Hlist : ListObjects (backend downWorld)
                  = Err (TransientIO "list: connection reset"))
    by (vm_compute; reflexivity).
  split; [exact Hperiod|]. split; [exact Hlist|].
  destruct (listing_failure_answers_500 (request []) downWorld
              (TransientIO "list: connection reset") Hperiod Hlist) as (Hindex & _).
  exact Hindex.
Defined.

(** X3, witness: a read on a periodic server. *)
Lemma reads_do_not_refresh_witness :
  CacheRefreshPeriod (server ticking) ≠ 0
  ∧ getAllChartsRequestHandler (request []) ticking
    = (JSON 200 (EntriesJSON (liveEntries ticking)), ticking).
Proof.
  assert (Hperiod : CacheRefreshPeriod (server ticking) ≠ 0)
    by (vm_compute; discriminate).
  split; [exact Hperiod|].
  destruct (reads_do_not_refresh (request []) ticking Hperiod) as (_ & Hall & _).
  exact Hall.
Defined.

(** X4, witness: the download of a stored package. *)
Lemma get_object_outcomes_witness :
  GetObject (backend started) (Param getAlpha1 "filename") = Ok alpha1
  ∧ (getStorageObjectRequestHandler getAlpha1 started).1
    = {| status := 200; body := Data ChartPackageContentType (Content alpha1) |}.
Proof.
  assert (Hget : GetObject (backend started) (Param getAlpha1 "filename") = Ok alpha1)
    by (vm_compute; reflexivity).
  split; [exact Hget|].
  destruct (get_object_outcomes getAlpha1 started) as (_ & _ & _ & Hstored).
  destruct (Hstored alpha1 Hget) as [_ Hpackage].
  apply Hpackage; vm_compute; reflexivity.
Defined.

(** X5, witness: a multipart upload whose package does not decode. *)
Lemma multipart_early_answers_witness :
  FormFile junkUpload (ChartPostFormFieldName (server started))
  = Some (Ok ["?"]%byte)
  ∧ ChartPackageFilenameFromContent ["?"]%byte = Err ErrorInvalidChartPackage
  ∧ (postPackageAndProvenanceRequestHandler junkUpload started).1
    = JSON 400 (errorResponse ErrorInvalidChartPackage).
Proof.
  assert (Hfile : FormFile junkUpload (ChartPostFormFieldName (server started))
                  = Some (Ok ["?"]%byte))
    by (vm_compute; reflexivity).
  assert (Hname : ChartPackageFilenameFromContent ["?"]%byte
                  = Err ErrorInvalidChartPackage)
    by (vm_compute; reflexivity).
  split; [exact Hfile|]. split; [exact Hname|].
  destruct (multipart_early_answers junkUpload started) as (_ & _ & Hdecode & _).
  exact (Hdecode ["?"]%byte ErrorInvalidChartPackage Hfile Hname).
Defined.

(** X6, witness: a multipart upload of a package the store holds. *)
Lemma multipart_rejection_writes_nothing_witness :
  status (postPackageAndProvenanceRequestHandler packageOnly started).1 = 409
  ∧ backend (postPackageAndProvenanceRequestHandler packageOnly started).2
    = backend started.
Proof.
  assert (Hstatus : status (postPackageAndProvenanceRequestHandler packageOnly
                              started).1 = 409)
    by (vm_compute; reflexivity).
  split; [exact Hstatus|].
  destruct (multipart_rejection_writes_nothing packageOnly started
              (or_intror Hstatus)) as (Hbackend & _).
  exact Hbackend.
Defined.

(** X8, witness: the raw upload of [beta 1.0] to a periodic server. *)
Lemma raw_upload_after_store_witness :
  PutObject (backend ticking) "beta-1.0.pkg" (Content beta1)
  = (None, (PutObject (backend ticking) "beta-1.0.pkg" (Content beta1)).2)
  ∧ backend (postPackageRequestHandler (rawUpload (Content beta1)) ticking).2
    = (PutObject (backend ticking) "beta-1.0.pkg" (Content beta1)).2.
Proof.
  assert (Hput : PutObject (backend ticking) "beta-1.0.pkg" (Content beta1)
                 = (None, (PutObject (backend ticking) "beta-1.0.pkg"
                                     (Content beta1)).2))
    by (vm_compute; reflexivity).
  split; [exact Hput|].
  destruct (raw_upload_after_store (rawUpload (Content beta1)) ticking
              (Content beta1) "beta-1.0.pkg"
              (PutObject (backend ticking) "beta-1.0.pkg" (Content beta1)).2
              ltac:(vm_compute; reflexivity) ltac:(vm_compute; reflexivity)
              ltac:(right; vm_compute; reflexivity) Hput) as (Hbackend & _).
  exact Hbackend.
Defined.

(** X9, witness: the provenance file of [alpha 1.0], not yet stored. *)
Lemma provenance_upload_outcomes_witness :
  is_Ok (GetObject (backend started) "alpha-1.0.pkg.prov") = false
  ∧ backend (postProvenanceFileRequestHandler alpha1Provenance started).2
    = (PutObject (backend started) "alpha-1.0.pkg.prov" ["p"; "a"; "1"]%byte).2.
Proof.
  assert (Habsent : is_Ok (GetObject (backend started) "alpha-1.0.pkg.prov") = false)
    by (vm_compute; reflexivity).
  split; [exact Habsent|].
  destruct (provenance_upload_outcomes alpha1Provenance started)
    as (_ & _ & _ & Hstored).
  destruct (Hstored ["p"; "a"; "1"]%byte "alpha-1.0.pkg.prov"
              ltac:(vm_compute; reflexivity) ltac:(vm_compute; reflexivity))
    as [_ Hput].
  destruct (Hput (or_intror Habsent)) as [Hbackend _].
  exact Hbackend.
Defined.

(** X10, witness: [beta-1.0.pkg] added to the cache of a periodic server
    and removed again. *)
Lemma add_then_remove_restores_cache_witness :
  list_find (λ o, Path o = Path beta1) (StorageCache (server ticking)) = None
  ∧ (addChartPackage beta1 ticking).1 = None
  ∧ StorageCache
      (server (removeChartPackage (Path beta1) (addChartPackage beta1 ticking).2).2)
    = StorageCache (server ticking).
Proof.
  assert (Hnew : list_find (λ o, Path o = Path beta1) (StorageCache (server ticking))
                 = None)
    by (vm_compute; reflexivity).
  assert (Hadd : (addChartPackage beta1 ticking).1 = None)
    by (vm_compute; reflexivity).
  split; [exact Hnew|]. split; [exact Hadd|].
  destruct (add_then_remove_restores_cache beta1 ticking Hnew Hadd) as [_ Hcache].
  exact Hcache.
Defined.


(** X12, witness: the cold start. *)
Lemma successful_reconcile_installs_listing_witness :
  (regenerateRepositoryIndex (newWorld coldStore (newServer false 0))).1 = None
  ∧ Forall (λ o, HasExtension o ChartPackageFileExtension = true)
           (StorageCache
              (server (regenerateRepositoryIndex
                         (newWorld coldStore (newServer false 0))).2)).
Proof.
  assert (Hok : (regenerateRepositoryIndex
                   (newWorld coldStore (newServer false 0))).1 = None)
    by (vm_compute; reflexivity).
  split; [exact Hok|].
  destruct (successful_reconcile_installs_listing
              (newWorld coldStore (newServer false 0)) Hok)
    as (all & _ & _ & Hext & _).
  exact Hext.
Defined.

(** X13, witness: the reconcile that fails on the rewritten
    [beta-1.0.pkg]. *)
Lemma failed_reconcile_keeps_pending_diff_witness :
  (regenerateRepositoryIndex driftedWorld).1
  = Some (TransientIO "get: connection reset")
  ∧ server (regenerateRepositoryIndex driftedWorld).2 = server driftedWorld.
Proof.
  assert (Herr : (regenerateRepositoryIndex driftedWorld).1
                 = Some (TransientIO "get: connection reset"))
    by (vm_compute; reflexivity).
  split; [exact Herr|].
  destruct (failed_reconcile_keeps_pending_diff driftedWorld
              (TransientIO "get: connection reset")) as [Hregenerate _].
  destruct (Hregenerate Herr) as (_ & Hserver & _).
  exact Hserver.
Defined.

(** X15, witness: a raw upload to a server in refresh-on-read mode. *)
Lemma refresh_on_read_mutations_leave_index_witness :
  CacheRefreshPeriod (server started) ≤ 0
  ∧ sameIndex started (postRequestHandler (rawUpload (Content beta1)) started).2.
Proof.
  assert (Hperiod : CacheRefreshPeriod (server started) ≤ 0)
    by (vm_compute; discriminate).
  split; [exact Hperiod|].
  destruct (refresh_on_read_mutations_leave_index (rawUpload (Content beta1))
              started Hperiod) as (Hpost & _).
  exact Hpost.
Defined.

(** X17, witness: the lookup of a cached package. *)
Lemma findObject_outcomes_witness :
  (findObject "alpha-2.0.pkg" ticking).1 = Ok alpha2
  ∧ ∃ idx, StorageCache (server ticking) !! idx = Some alpha2
           ∧ Path alpha2 = "alpha-2.0.pkg"
           ∧ ∀ j o', StorageCache (server ticking) !! j = Some o' →
                     (j < idx)%nat → Path o' ≠ "alpha-2.0.pkg".
Proof.
  assert (Hfound : (findObject "alpha-2.0.pkg" ticking).1 = Ok alpha2)
    by (vm_compute; reflexivity).
  split; [exact Hfound|].
  destruct (findObject_outcomes "alpha-2.0.pkg" ticking) as (_ & Hfirst & _).
  exact (Hfirst alpha2 Hfound).
Defined.
End FurtherRuns.
